(** * react-session-hooks: storage-backed state bindings

    A shallow embedding of [src/utils.ts], of the two hooks built from it
    ([useLocalState], [useSessionState]) and of their earlier inline
    versions, followed by the properties of the specification.

    Modelling conventions.
    - JavaScript values of the type parameter [T] are the data values of
      [Val]; an updater function is the other alternative of the union
      [T | ((prev: T | null) => T | null) | null], see [Request].
    - A call that may throw returns an [Outcome]; statements run in the
      monad [M], which threads the [World] (both storage backends, the
      journal of backend calls, the console and the hook's two state cells)
      and keeps the world reached when an exception is thrown.
    - A [Storage] object is a map from keys to strings: [getItem] yields
      [None] for JavaScript's [null]; [setItem] may throw (a full quota),
      as the world's [refusal] decides, and then changes nothing.
    - A hook is a function of the state its render reads: [updateValue]
      closes over that value and sees a later one only after a re-render.
      A re-render that passes arguments of a new identity re-runs the
      effects that list them as dependencies. *)

From Stdlib Require Import ZArith Ascii.
From stdpp Require Import gmap strings list.

Open Scope string_scope.

Set Warnings "-register-all".

(** ** Values

    [VNum] stands for the numbers other than [NaN]; the code looks at a
    number only through its truthiness, for which integers suffice. *)

Inductive Val : Type :=
| VUndefined
| VNull
| VBool (b : bool)
| VNum (n : Z)
| VNaN
| VStr (s : string)
| VArr (items : list Val)
| VObj (props : list (string * Val)).

(** The result of evaluating an expression: a value, or a thrown one. *)
Inductive Outcome (A : Type) : Type :=
| Ok (a : A)
| Throw (error : Val).

Arguments Ok {A} a.
Arguments Throw {A} error.

(** [value: T | ((prev: T | null) => T | null) | null]; the test
    [typeof value === "function"] is the case distinction. *)
Inductive Request : Type :=
| Literal (v : Val)
| Updater (callback : Val -> Outcome Val).

(** ToBoolean, as used by [!value]. *)
Definition truthy (v : Val) : bool :=
  match v with
  | VUndefined | VNull | VNaN => false
  | VBool b => b
  | VNum n => negb (n =? 0)%Z
  | VStr s => negb (String.eqb s "")
  | VArr _ | VObj _ => true
  end.

(** [newValue === null || newValue == undefined || newValue === ""] *)
Definition isEmptyValue (v : Val) : bool :=
  match v with
  | VNull | VUndefined => true
  | VStr s => String.eqb s ""
  | _ => false
  end.

(** [defaultValue !== undefined] *)
Definition isDefined (v : Val) : bool :=
  match v with
  | VUndefined => false
  | _ => true
  end.

(** ** The world *)

Inductive StorageRef : Type := localStorage | sessionStorage.

Inductive BackendCall : Type :=
| SetItem (storage : StorageRef) (key value : string)
| RemoveItem (storage : StorageRef) (key : string).

(** The five [console.warn] call sites. *)
Inductive Diagnostic : Type :=
| ErrorParsingLocalStorageKey (key : string) (error : Val)
| ErrorParsingSessionStorageKey (key : string) (error : Val)
| DefaultValueCannotBeSerialized
| AbortingStateUpdate (key : string) (error : Val)
| AbortingAutomaticStateUpdate (key : string) (error : Val).

(** Both backends, the calls on them that returned, the console, the two
    state cells of the hook, and what a backend answers to [setItem]:
    [refusal w storage held key value] is [None] when the backend, holding
    [held], takes the write, and the error it throws when it refuses it. *)
Record World : Type := mkWorld {
  localRecords : gmap string string;
  sessionRecords : gmap string string;
  backendCalls : list BackendCall;
  console : list Diagnostic;
  currentValue : Val;
  loading : bool;
  refusal : StorageRef -> gmap string string -> string -> string -> option Val
}.

Definition records (storage : StorageRef) (w : World) : gmap string string :=
  match storage with
  | localStorage => localRecords w
  | sessionStorage => sessionRecords w
  end.

Definition withRecords (storage : StorageRef) (m : gmap string string)
    (call : BackendCall) (w : World) : World :=
  match storage with
  | localStorage =>
      mkWorld m (sessionRecords w) (backendCalls w ++ [call]) (console w)
        (currentValue w) (loading w) (refusal w)
  | sessionStorage =>
      mkWorld (localRecords w) m (backendCalls w ++ [call]) (console w)
        (currentValue w) (loading w) (refusal w)
  end.

(** The world after each primitive step. *)
Definition afterSetItem (storage : StorageRef) (key value : string)
    (w : World) : World :=
  withRecords storage (<[key := value]> (records storage w))
    (SetItem storage key value) w.

Definition afterRemoveItem (storage : StorageRef) (key : string)
    (w : World) : World :=
  withRecords storage (delete key (records storage w))
    (RemoveItem storage key) w.

Definition afterWarn (d : Diagnostic) (w : World) : World :=
  mkWorld (localRecords w) (sessionRecords w) (backendCalls w)
    (console w ++ [d]) (currentValue w) (loading w) (refusal w).

Definition afterSetValue (v : Val) (w : World) : World :=
  mkWorld (localRecords w) (sessionRecords w) (backendCalls w)
    (console w) v (loading w) (refusal w).

Definition afterSetLoading (b : bool) (w : World) : World :=
  mkWorld (localRecords w) (sessionRecords w) (backendCalls w)
    (console w) (currentValue w) b (refusal w).

(** ** Statements *)

Definition M (A : Type) : Type := World -> Outcome A * World.

Definition ret {A} (a : A) : M A := fun w => (Ok a, w).

Definition bind {A B} (c : M A) (k : A -> M B) : M B :=
  fun w =>
    match c w with
    | (Ok a, w') => k a w'
    | (Throw e, w') => (Throw e, w')
    end.

Notation "x <- c ;; k" := (bind c (fun x => k))
  (at level 100, c at next level, k at level 200, right associativity).
Notation "c ;; k" := (bind c (fun _ => k))
  (at level 100, k at level 200, right associativity).

(** Evaluate a call that may throw. *)
Definition eval {A} (o : Outcome A) : M A := fun w => (o, w).

(** [try { body } catch (error) { handler }] *)
Definition try_catch {A} (body : M A) (handler : Val -> M A) : M A :=
  fun w =>
    match body w with
    | (Ok a, w') => (Ok a, w')
    | (Throw e, w') => handler e w'
    end.

Definition getItem (storage : StorageRef) (key : string) : M (option string) :=
  fun w => (Ok (records storage w !! key), w).

Definition setItem (storage : StorageRef) (key value : string) : M unit :=
  fun w =>
    match refusal w storage (records storage w) key value with
    | Some error => (Throw error, w)
    | None => (Ok tt, afterSetItem storage key value w)
    end.

Definition removeItem (storage : StorageRef) (key : string) : M unit :=
  fun w => (Ok tt, afterRemoveItem storage key w).

Definition console_warn (d : Diagnostic) : M unit :=
  fun w => (Ok tt, afterWarn d w).

(** The two [useState] setters of a hook. *)
Definition setStoredValue (v : Val) : M unit :=
  fun w => (Ok tt, afterSetValue v w).

Definition setLoading (b : bool) : M unit :=
  fun w => (Ok tt, afterSetLoading b w).

(** [if (item)] on the result of [getItem]: [null] and [""] are falsy. *)
Definition truthyItem (item : option string) : option string :=
  match item with
  | Some s => if String.eqb s "" then None else Some s
  | None => None
  end.

(** How a block ends: it falls through, or it executes [return b]. *)
Inductive Completion (A : Type) : Type :=
| Normal
| Return (a : A).

Arguments Normal {A}.
Arguments Return {A} a.

(** ** src/utils.ts *)

Module Utils.

Definition calculateNewValue (value : Request) (storedValue : Val)
    : Outcome Val :=
  match value with
  | Updater callback => callback storedValue
  | Literal v => if negb (truthy v) then Ok VNull else Ok v
  end.

Definition updateStorage (storage : StorageRef) (newValue : Val)
    (key : string) (setStoredValue : Val -> M unit)
    (serialize : Val -> Outcome string) : M unit :=
  if isEmptyValue newValue then
    removeItem storage key ;;
    setStoredValue VNull
  else
    try_catch
      (s <- eval (serialize newValue) ;;
       setItem storage key s ;;
       setStoredValue newValue)
      (fun error => console_warn (AbortingStateUpdate key error)).

Definition setInitialValue (storage : StorageRef) (key : string)
    (defaultValue : Val) (setStoredValue : Val -> M unit)
    (deserialize : string -> Outcome Val)
    (serialize : Val -> Outcome string) : M bool :=
  item <- getItem storage key ;;
  c1 <- match truthyItem item with
        | Some raw =>
            try_catch
              (v <- eval (deserialize raw) ;;
               setStoredValue v ;;
               ret (Return true))
              (fun error =>
                 console_warn (ErrorParsingSessionStorageKey key error) ;;
                 removeItem storage key ;;
                 ret Normal)
        | None => ret Normal
        end ;;
  match c1 with
  | Return b => ret b
  | Normal =>
      c2 <- (if isDefined defaultValue then
               try_catch
                 (s <- eval (serialize defaultValue) ;;
                  setItem storage key s ;;
                  setStoredValue defaultValue ;;
                  ret (Return true))
                 (fun _ =>
                    console_warn DefaultValueCannotBeSerialized ;;
                    ret Normal)
             else ret Normal) ;;
      match c2 with
      | Return b => ret b
      | Normal => setStoredValue VNull ;; ret true
      end
  end.

End Utils.

(** ** The hooks *)

(** [StorageEvent]: [key] and [newValue] are [string | null]. *)
Record StorageEvent : Type := mkStorageEvent {
  eventKey : option string;
  eventNewValue : option string
}.

(** What one render of a hook gives to React and to its consumer: the
    effect that loads the initial value, whether that effect lists the
    hook's arguments as dependencies ([[key, defaultValue, deserialize,
    serialize]]) or none ([[]]), the [updateValue] returned as second
    component, and the listener registered for ["storage"] events, if any.
    The first and third components of the returned tuple are the state the
    render read. *)
Record Hook : Type := mkHook {
  activate : M unit;
  effectDependsOnArguments : bool;
  updateValue : Request -> M unit;
  storageListener : option (StorageEvent -> M unit)
}.

(** [event.key === key] *)
Definition sameKey (eventKey : option string) (key : string) : bool :=
  match eventKey with
  | Some k => String.eqb k key
  | None => false
  end.

(** The hooks as first written, with the three steps inline.  The inline
    [useLocalState] also reads [localStorage.getItem(key)] at every render
    and drops the result; that read is left out. *)
Module Inline.

Section UseLocalState.

Variable key : string.
Variable defaultValue : Val.
Variable serialize : Val -> Outcome string.
Variable deserialize : string -> Outcome Val.

(** [const [storedValue, setStoredValue] = useState(null)]: the value this
    render read. *)
Variable storedValue : Val.

Definition useLocalState_setInitialValue : M bool :=
  item <- getItem localStorage key ;;
  c1 <- match truthyItem item with
        | Some raw =>
            try_catch
              (v <- eval (deserialize raw) ;;
               setStoredValue v ;;
               ret (Return true))
              (fun error =>
                 console_warn (ErrorParsingLocalStorageKey key error) ;;
                 removeItem localStorage key ;;
                 ret Normal)
        | None => ret Normal
        end ;;
  match c1 with
  | Return b => ret b
  | Normal =>
      c2 <- (if isDefined defaultValue then
               try_catch
                 (s <- eval (serialize defaultValue) ;;
                  setItem localStorage key s ;;
                  setStoredValue defaultValue ;;
                  ret (Return true))
                 (fun _ =>
                    console_warn DefaultValueCannotBeSerialized ;;
                    ret Normal)
             else ret Normal) ;;
      match c2 with
      | Return b => ret b
      | Normal => setStoredValue VNull ;; ret true
      end
  end.

Definition useLocalState_updateValue (value : Request) : M unit :=
  newValue <- match value with
              | Updater callback => eval (callback storedValue)
              | Literal v => if negb (truthy v) then ret VNull else ret v
              end ;;
  if isEmptyValue newValue then
    removeItem localStorage key ;;
    setStoredValue VNull
  else
    try_catch
      (s <- eval (serialize newValue) ;;
       setItem localStorage key s ;;
       setStoredValue newValue)
      (fun error => console_warn (AbortingStateUpdate key error)).

Definition useLocalState_handleStorageChange (event : StorageEvent)
    : M unit :=
  if sameKey (eventKey event) key then
    try_catch
      (v <- match truthyItem (eventNewValue event) with
            | Some raw => eval (deserialize raw)
            | None => ret VNull
            end ;;
       setStoredValue v)
      (fun error => console_warn (AbortingAutomaticStateUpdate key error))
  else ret tt.

Definition useLocalState : Hook :=
  {| activate :=
       isValueSet <- useLocalState_setInitialValue ;;
       setLoading (negb isValueSet);
     effectDependsOnArguments := false;
     updateValue := useLocalState_updateValue;
     storageListener := Some useLocalState_handleStorageChange |}.

End UseLocalState.

Section UseSessionState.

Variable key : string.
Variable defaultValue : Val.
Variable serialize : Val -> Outcome string.
Variable deserialize : string -> Outcome Val.
Variable storedValue : Val.

Definition useSessionState_setInitialValue : M bool :=
  item <- getItem sessionStorage key ;;
  c1 <- match truthyItem item with
        | Some raw =>
            try_catch
              (v <- eval (deserialize raw) ;;
               setStoredValue v ;;
               ret (Return true))
              (fun error =>
                 console_warn (ErrorParsingSessionStorageKey key error) ;;
                 removeItem sessionStorage key ;;
                 ret Normal)
        | None => ret Normal
        end ;;
  match c1 with
  | Return b => ret b
  | Normal =>
      c2 <- (if isDefined defaultValue then
               try_catch
                 (s <- eval (serialize defaultValue) ;;
                  setItem sessionStorage key s ;;
                  setStoredValue defaultValue ;;
                  ret (Return true))
                 (fun _ =>
                    console_warn DefaultValueCannotBeSerialized ;;
                    ret Normal)
             else ret Normal) ;;
      match c2 with
      | Return b => ret b
      | Normal => setStoredValue VNull ;; ret true
      end
  end.

Definition useSessionState_updateValue (value : Request) : M unit :=
  newValue <- match value with
              | Updater callback => eval (callback storedValue)
              | Literal v => if negb (truthy v) then ret VNull else ret v
              end ;;
  if isEmptyValue newValue then
    removeItem sessionStorage key ;;
    setStoredValue VNull
  else
    try_catch
      (s <- eval (serialize newValue) ;;
       setItem sessionStorage key s ;;
       setStoredValue newValue)
      (fun error => console_warn (AbortingStateUpdate key error)).

Definition useSessionState : Hook :=
  {| activate :=
       isValueSet <- useSessionState_setInitialValue ;;
       setLoading (negb isValueSet);
     effectDependsOnArguments := false;
     updateValue := useSessionState_updateValue;
     storageListener := None |}.

End UseSessionState.

End Inline.

(** The hooks composed from the helpers of [src/utils.ts]. *)
Module Shared.

Section UseLocalState.

Variable key : string.
Variable defaultValue : Val.
Variable serialize : Val -> Outcome string.
Variable deserialize : string -> Outcome Val.

(** [const [value, setvalue] = useState(null)]: the value this render
    read. *)
Variable value : Val.

Definition useLocalState_handleStorageChange (event : StorageEvent)
    : M unit :=
  if sameKey (eventKey event) key then
    try_catch
      (v <- match truthyItem (eventNewValue event) with
            | Some raw => eval (deserialize raw)
            | None => ret VNull
            end ;;
       setStoredValue v)
      (fun error => console_warn (AbortingAutomaticStateUpdate key error))
  else ret tt.

Definition useLocalState_updateValue (newValue : Request) : M unit :=
  calculatedValue <- eval (Utils.calculateNewValue newValue value) ;;
  Utils.updateStorage localStorage calculatedValue key setStoredValue
    serialize.

Definition useLocalState : Hook :=
  {| activate :=
       isValueSet <- Utils.setInitialValue localStorage key defaultValue
                       setStoredValue deserialize serialize ;;
       setLoading (negb isValueSet);
     effectDependsOnArguments := true;
     updateValue := useLocalState_updateValue;
     storageListener := Some useLocalState_handleStorageChange |}.

End UseLocalState.

Section UseSessionState.

Variable key : string.
Variable defaultValue : Val.
Variable serialize : Val -> Outcome string.
Variable deserialize : string -> Outcome Val.

(** [const [value, setvalue] = useState(null)]: the value this render
    read. *)
Variable value : Val.

Definition useSessionState_updateValue (newValue : Request) : M unit :=
  calculatedValue <- eval (Utils.calculateNewValue newValue value) ;;
  Utils.updateStorage sessionStorage calculatedValue key setStoredValue
    serialize.

Definition useSessionState : Hook :=
  {| activate :=
       isValueSet <- Utils.setInitialValue sessionStorage key defaultValue
                       setStoredValue deserialize serialize ;;
       setLoading (negb isValueSet);
     effectDependsOnArguments := true;
     updateValue := useSessionState_updateValue;
     storageListener := None |}.

End UseSessionState.

End Shared.

(** ** Bindings and their runs *)

Inductive Variant : Type :=
| InlineLocal
| InlineSession
| SharedLocal
| SharedSession.

(** One render of a hook, with the state value that render read. *)
Definition hookOf (variant : Variant) (key : string) (defaultValue : Val)
    (serialize : Val -> Outcome string)
    (deserialize : string -> Outcome Val) (storedValue : Val) : Hook :=
  match variant with
  | InlineLocal =>
      Inline.useLocalState key defaultValue serialize deserialize storedValue
  | InlineSession =>
      Inline.useSessionState key defaultValue serialize deserialize
        storedValue
  | SharedLocal =>
      Shared.useLocalState key defaultValue serialize deserialize storedValue
  | SharedSession =>
      Shared.useSessionState key defaultValue serialize deserialize
        storedValue
  end.

Definition backendOf (variant : Variant) : StorageRef :=
  match variant with
  | InlineLocal | SharedLocal => localStorage
  | InlineSession | SharedSession => sessionStorage
  end.

(** The record a backend holds under a key. *)
Definition recordOf (storage : StorageRef) (key : string) (w : World)
    : option string :=
  records storage w !! key.

(** The world at the first render: [useState(null)], [useState(true)]. *)
Definition firstRender (locals sessions : gmap string string)
    (refusal : StorageRef -> gmap string string -> string -> string
               -> option Val) : World :=
  mkWorld locals sessions [] [] VNull true refusal.

(** What happens to a mounted hook: its update function is called, a
    storage event arrives, or the component renders again, with arguments
    of the same identity or of a new one. *)
Inductive Event : Type :=
| Update (request : Request)
| StorageChange (event : StorageEvent)
| Rerender (freshArguments : bool).

(** One event, handled by the render [h] that is current when it happens.
    After a re-render with arguments of a new identity React runs again the
    effects that depend on them. *)
Definition dispatch (h : Hook) (e : Event) : M unit :=
  match e with
  | Update request => updateValue h request
  | StorageChange event =>
      match storageListener h with
      | Some listener => listener event
      | None => ret tt
      end
  | Rerender freshArguments =>
      if freshArguments && effectDependsOnArguments h then activate h
      else ret tt
  end.

(** The state value the current render has read, once the event happened:
    only a re-render reads it anew. *)
Definition renderedAfter (e : Event) (rendered : Val) (w : World) : Val :=
  match e with
  | Rerender _ => currentValue w
  | _ => rendered
  end.

(** Events are handled one after the other by a mounted hook, given as the
    function from the state a render reads to that render; an exception
    that leaves a handler is reported to the caller and the next event is
    handled in the world that handler left behind. *)
Fixpoint handleAll (component : Val -> Hook) (events : list Event)
    (rendered : Val) (w : World) : list (Outcome unit) * World :=
  match events with
  | [] => ([], w)
  | e :: rest =>
      let rendered1 := renderedAfter e rendered w in
      let (o, w1) := dispatch (component rendered1) e w in
      let (os, w2) := handleAll component rest rendered1 w1 in
      (o :: os, w2)
  end.

(** The first render reads the state, its effects run, then the events
    follow. *)
Definition run (component : Val -> Hook) (events : list Event) (w : World)
    : list (Outcome unit) * World :=
  let rendered := currentValue w in
  let (o, w1) := activate (component rendered) w in
  let (os, w2) := handleAll component events rendered w1 in
  (o :: os, w2).

(** What the consumer and the backends show, leaving the console aside. *)
Definition observe (w : World)
    : gmap string string * gmap string string * list BackendCall * Val * bool :=
  (localRecords w, sessionRecords w, backendCalls w, currentValue w, loading w).

(** ** Notions used in the properties *)

(** The warning a hook prints for a record it cannot parse: only the inline
    [useLocalState] names localStorage in it. *)
Definition parseWarning (variant : Variant) (key : string) (error : Val)
    : Diagnostic :=
  match variant with
  | InlineLocal => ErrorParsingLocalStorageKey key error
  | _ => ErrorParsingSessionStorageKey key error
  end.

(** A record the initial load can use: [getItem] returned a non-empty string
    and the deserializer accepts it. *)
Definition usableRecord (deserialize : string -> Outcome Val)
    (item : option string) : Prop :=
  exists raw v, truthyItem item = Some raw /\ deserialize raw = Ok v.

(** [deserialize] undoes [serialize] wherever [serialize] returns. *)
Definition leftInverse (deserialize : string -> Outcome Val)
    (serialize : Val -> Outcome string) : Prop :=
  forall v s, serialize v = Ok s -> deserialize s = Ok v.

(** The hook that replaced an inline hook. *)
Definition refactored (variant : Variant) : Variant :=
  match variant with
  | InlineLocal | SharedLocal => SharedLocal
  | InlineSession | SharedSession => SharedSession
  end.

(** Two worlds that differ in the console at most. *)
Definition alike (w1 w2 : World) : Prop :=
  observe w1 = observe w2 /\ refusal w1 = refusal w2.

(** The backend takes the write of [value] under [key], in the state it is
    in, and in any state. *)
Definition accepts (w : World) (storage : StorageRef) (key value : string)
    : Prop :=
  refusal w storage (records storage w) key value = None.

Definition alwaysAccepts (w : World) (storage : StorageRef)
    (key value : string) : Prop :=
  forall held, refusal w storage held key value = None.

(** An event list without a re-render that passes arguments of a new
    identity. *)
Definition stableArguments (events : list Event) : Prop :=
  Forall (fun e => e <> Rerender true) events.

(** ** Notions used in the further properties *)

(** A fresh first render over the backends a world leaves behind: the page
    is loaded again, or the hook is mounted once more. *)
Definition reload (w : World) : World :=
  firstRender (localRecords w) (sessionRecords w) (refusal w).

(** The record under the key is the serialization of the current value, or
    there is no record and the current value is [null]. *)
Definition consistent (serialize : Val -> Outcome string)
    (storage : StorageRef) (key : string) (w : World) : Prop :=
  match recordOf storage key w with
  | Some s => serialize (currentValue w) = Ok s
  | None => currentValue w = VNull
  end.

(** A backend call made on the given backend, for the given key. *)
Definition onKey (storage : StorageRef) (key : string) (call : BackendCall)
    : Prop :=
  match call with
  | SetItem st k _ | RemoveItem st k => st = storage /\ k = key
  end.

(** The worlds reachable by the primitive steps of a hook bound to one
    backend and one key. *)
Inductive evolves (storage : StorageRef) (key : string)
    : World -> World -> Prop :=
| evolves_refl (w : World) : evolves storage key w w
| evolves_setItem (w w' : World) (s : string) :
    evolves storage key w w' ->
    evolves storage key w (afterSetItem storage key s w')
| evolves_removeItem (w w' : World) :
    evolves storage key w w' ->
    evolves storage key w (afterRemoveItem storage key w')
| evolves_warn (w w' : World) (d : Diagnostic) :
    evolves storage key w w' -> evolves storage key w (afterWarn d w')
| evolves_setValue (w w' : World) (v : Val) :
    evolves storage key w w' -> evolves storage key w (afterSetValue v w')
| evolves_setLoading (w w' : World) (b : bool) :
    evolves storage key w w' -> evolves storage key w (afterSetLoading b w').

(** A world whose backends take every write. *)
Definition neverRefuses (w : World) : Prop :=
  forall storage held k s, refusal w storage held k s = None.

(** The event another context receives after this one changed the record
    under [key] in the persistent backend. *)
Definition changeNotice (key : string) (w : World) : StorageEvent :=
  mkStorageEvent (Some key) (recordOf localStorage key w).

(** ** Serializer pairs and worlds used in examples *)

Module Samples.

Definition typeError : Val := VStr "TypeError".
Definition syntaxError : Val := VStr "SyntaxError".

(** A pair a consumer may pass as third and fourth argument: it accepts
    [null], booleans and strings, writing [null] and the booleans as JSON
    does and a string behind the letter s, and throws on everything else. *)

Definition tagSerialize (v : Val) : Outcome string :=
  match v with
  | VNull => Ok "null"
  | VBool true => Ok "true"
  | VBool false => Ok "false"
  | VStr s => Ok ("s" +:+ s)
  | _ => Throw typeError
  end.

Definition tagDeserialize (raw : string) : Outcome Val :=
  if String.eqb raw "null" then Ok VNull
  else if String.eqb raw "true" then Ok (VBool true)
  else if String.eqb raw "false" then Ok (VBool false)
  else match raw with
       | String "s"%char rest => Ok (VStr rest)
       | _ => Throw syntaxError
       end.

(** The pair of the test suite for objects with a name:
    [serialize = value => value.name] on such objects, and
    [deserialize = value => ({ name: value })]. *)
Fixpoint getProp (name : string) (props : list (string * Val)) : Val :=
  match props with
  | [] => VUndefined
  | (k, v) :: rest => if String.eqb k name then v else getProp name rest
  end.

Definition nameSerialize (v : Val) : Outcome string :=
  match v with
  | VObj props =>
      match getProp "name" props with
      | VStr n => Ok n
      | _ => Throw typeError
      end
  | _ => Throw typeError
  end.

Definition nameDeserialize (raw : string) : Outcome Val :=
  Ok (VObj [("name", VStr raw)]).

Definition john : Val := VObj [("name", VStr "John")].

(** A backend that takes every write, and one that is full. *)
Definition roomy (storage : StorageRef) (held : gmap string string)
    (key value : string) : option Val := None.

Definition quotaExceeded : Val := VStr "QuotaExceededError".

Definition full (storage : StorageRef) (held : gmap string string)
    (key value : string) : option Val := Some quotaExceeded.

(** A world with nothing stored, at the first render. *)
Definition emptyWorld : World := firstRender ∅ ∅ roomy.

(** The same with backends that are full. *)
Definition fullWorld : World := firstRender ∅ ∅ full.

(** A world at the first render whose backends both hold [raw] under [key]. *)
Definition seededWorld (key raw : string) : World :=
  firstRender {[key := raw]} {[key := raw]} roomy.

(** A world after activation: the persistent backend holds [raw] under
    [key] and the current value is [v]. *)
Definition settledWorld (key raw : string) (v : Val) : World :=
  mkWorld {[key := raw]} ∅ [] [] v false roomy.

(** The same with backends that are full. *)
Definition settledFullWorld (key raw : string) (v : Val) : World :=
  mkWorld {[key := raw]} ∅ [] [] v false full.

End Samples.

(** ** Path equations

    One equation per control path of each operation, for the four hooks at
    once.  The properties below are read off from them. *)

Ltac unfold_hooks :=
  unfold hookOf, backendOf, recordOf, parseWarning,
    Inline.useLocalState, Inline.useSessionState,
    Shared.useLocalState, Shared.useSessionState,
    Inline.useLocalState_setInitialValue,
    Inline.useSessionState_setInitialValue,
    Inline.useLocalState_updateValue, Inline.useSessionState_updateValue,
    Inline.useLocalState_handleStorageChange,
    Shared.useLocalState_updateValue, Shared.useSessionState_updateValue,
    Shared.useLocalState_handleStorageChange,
    Utils.setInitialValue, Utils.updateStorage, Utils.calculateNewValue,
    dispatch in *;
  cbn [activate updateValue storageListener records] in *.

Ltac unfold_monad :=
  unfold bind, try_catch, eval, ret, getItem, setItem, removeItem,
    console_warn, setStoredValue, setLoading, accepts in *.

Lemma tag_pair_inverse :
  leftInverse Samples.tagDeserialize Samples.tagSerialize.
Proof.
  intros v s. destruct v as [| | [] | | | t | |]; cbn; intros H;
    try discriminate; injection H as <-; reflexivity.
Qed.

Section Paths.

Variable variant : Variant.
Variable key : string.
Variable defaultValue : Val.
Variable serialize : Val -> Outcome string.
Variable deserialize : string -> Outcome Val.
Variable stored : Val.

Local Abbreviation hook :=
  (hookOf variant key defaultValue serialize deserialize stored).
Local Abbreviation backend := (backendOf variant).

Lemma recordOf_afterRemoveItem (storage : StorageRef) (k : string)
    (w : World) :
  recordOf storage k (afterRemoveItem storage k w) = None.
Proof.
  unfold recordOf, afterRemoveItem.
  destruct storage; cbn; apply lookup_delete_eq.
Qed.

Lemma recordOf_afterSetItem (storage : StorageRef) (k s : string)
    (w : World) :
  recordOf storage k (afterSetItem storage k s w) = Some s.
Proof.
  unfold recordOf, afterSetItem.
  destruct storage; cbn; apply lookup_insert_eq.
Qed.

Lemma recordOf_afterWarn (storage : StorageRef) (k : string)
    (d : Diagnostic) (w : World) :
  recordOf storage k (afterWarn d w) = recordOf storage k w.
Proof. destruct storage; reflexivity. Qed.

Lemma recordOf_afterSetValue (storage : StorageRef) (k : string)
    (v : Val) (w : World) :
  recordOf storage k (afterSetValue v w) = recordOf storage k w.
Proof. destruct storage; reflexivity. Qed.

Lemma recordOf_afterSetLoading (storage : StorageRef) (k : string)
    (b : bool) (w : World) :
  recordOf storage k (afterSetLoading b w) = recordOf storage k w.
Proof. destruct storage; reflexivity. Qed.

(** *** Activation *)

Lemma activate_usable (w : World) (raw : string) (v : Val) :
  truthyItem (recordOf backend key w) = Some raw ->
  deserialize raw = Ok v ->
  activate hook w = (Ok tt, afterSetLoading false (afterSetValue v w)).
Proof.
  intros Hitem Hraw.
  destruct variant; unfold_hooks; unfold_monad; cbn;
    rewrite Hitem, Hraw; reflexivity.
Qed.

Lemma activate_corrupt (w : World) (raw : string) (error : Val) :
  truthyItem (recordOf backend key w) = Some raw ->
  deserialize raw = Throw error ->
  activate hook w
  = activate hook
      (afterRemoveItem backend key
         (afterWarn (parseWarning variant key error) w)).
Proof.
  intros Hitem Hraw.
  destruct variant; unfold_hooks; unfold_monad; cbn;
    rewrite Hitem, Hraw, lookup_delete_eq; reflexivity.
Qed.

Lemma activate_default_stored (w : World) (s : string) :
  truthyItem (recordOf backend key w) = None ->
  isDefined defaultValue = true ->
  serialize defaultValue = Ok s ->
  accepts w backend key s ->
  activate hook w
  = (Ok tt,
     afterSetLoading false
       (afterSetValue defaultValue (afterSetItem backend key s w))).
Proof.
  intros Hitem Hdef Hser Hacc.
  destruct variant; unfold_hooks; unfold_monad; cbn in *;
    rewrite Hitem, Hdef, Hser; cbn; rewrite Hacc; reflexivity.
Qed.

Lemma activate_default_refused (w : World) (s : string) (error : Val) :
  truthyItem (recordOf backend key w) = None ->
  isDefined defaultValue = true ->
  serialize defaultValue = Ok s ->
  refusal w backend (records backend w) key s = Some error ->
  activate hook w
  = (Ok tt,
     afterSetLoading false
       (afterSetValue VNull (afterWarn DefaultValueCannotBeSerialized w))).
Proof.
  intros Hitem Hdef Hser Hacc.
  destruct variant; unfold_hooks; unfold_monad; cbn in *;
    rewrite Hitem, Hdef, Hser; cbn; rewrite Hacc; reflexivity.
Qed.

Lemma activate_default_rejected (w : World) (error : Val) :
  truthyItem (recordOf backend key w) = None ->
  isDefined defaultValue = true ->
  serialize defaultValue = Throw error ->
  activate hook w
  = (Ok tt,
     afterSetLoading false
       (afterSetValue VNull (afterWarn DefaultValueCannotBeSerialized w))).
Proof.
  intros Hitem Hdef Hser.
  destruct variant; unfold_hooks; unfold_monad; cbn;
    rewrite Hitem, Hdef, Hser; reflexivity.
Qed.

Lemma activate_no_default (w : World) :
  truthyItem (recordOf backend key w) = None ->
  isDefined defaultValue = false ->
  activate hook w = (Ok tt, afterSetLoading false (afterSetValue VNull w)).
Proof.
  intros Hitem Hdef.
  destruct variant; unfold_hooks; unfold_monad; cbn;
    rewrite Hitem, Hdef; reflexivity.
Qed.

(** Activation always ends normally, with the loading flag cleared. *)
Lemma activate_returns (w : World) :
  exists w', activate hook w = (Ok tt, w') /\ loading w' = false.
Proof.
  assert (Habsent : forall w0, truthyItem (recordOf backend key w0) = None ->
            exists w', activate hook w0 = (Ok tt, w') /\ loading w' = false).
  { intros w0 Hitem.
    destruct (isDefined defaultValue) eqn:Hdef.
    - destruct (serialize defaultValue) as [s | error] eqn:Hser.
      + destruct (refusal w0 backend (records backend w0) key s)
          as [error |] eqn:Hacc.
        * eexists. split; [eapply activate_default_refused; eassumption |].
          reflexivity.
        * eexists. split; [eapply activate_default_stored; eassumption |].
          reflexivity.
      + eexists. split; [eapply activate_default_rejected; eassumption |].
        reflexivity.
    - eexists. split; [eapply activate_no_default; eassumption |].
      reflexivity. }
  destruct (truthyItem (recordOf backend key w)) as [raw |] eqn:Hitem.
  - destruct (deserialize raw) as [v | error] eqn:Hraw.
    + eexists. split; [eapply activate_usable; eassumption |]. reflexivity.
    + erewrite activate_corrupt by eassumption.
      apply Habsent. rewrite recordOf_afterRemoveItem. reflexivity.
  - apply Habsent, Hitem.
Qed.

(** *** Update *)

Lemma update_escapes (w : World) (request : Request) (error : Val) :
  Utils.calculateNewValue request stored = Throw error ->
  updateValue hook request w = (Throw error, w).
Proof.
  intros Hcalc.
  destruct variant, request as [v | callback]; unfold_hooks; unfold_monad;
    cbn in *;
    try (destruct (truthy v); discriminate);
    rewrite Hcalc; reflexivity.
Qed.

Lemma update_empty (w : World) (request : Request) (c : Val) :
  Utils.calculateNewValue request stored = Ok c ->
  isEmptyValue c = true ->
  updateValue hook request w
  = (Ok tt, afterSetValue VNull (afterRemoveItem backend key w)).
Proof.
  intros Hcalc Hempty.
  destruct variant, request as [v | callback]; unfold_hooks; unfold_monad;
    cbn in *;
    try (destruct (truthy v); cbn in *; injection Hcalc as <-);
    try rewrite Hcalc; cbn; try rewrite Hempty; reflexivity.
Qed.

Lemma update_stored (w : World) (request : Request) (c : Val) (s : string) :
  Utils.calculateNewValue request stored = Ok c ->
  isEmptyValue c = false ->
  serialize c = Ok s ->
  accepts w backend key s ->
  updateValue hook request w
  = (Ok tt, afterSetValue c (afterSetItem backend key s w)).
Proof.
  intros Hcalc Hempty Hser Hacc.
  destruct variant, request as [v | callback]; unfold_hooks; unfold_monad;
    cbn in *;
    try (destruct (truthy v); cbn in *; injection Hcalc as <-);
    try discriminate;
    try rewrite Hcalc; cbn; rewrite Hempty, Hser; cbn; rewrite Hacc;
    reflexivity.
Qed.

Lemma update_refused (w : World) (request : Request) (c error : Val)
    (s : string) :
  Utils.calculateNewValue request stored = Ok c ->
  isEmptyValue c = false ->
  serialize c = Ok s ->
  refusal w backend (records backend w) key s = Some error ->
  updateValue hook request w
  = (Ok tt, afterWarn (AbortingStateUpdate key error) w).
Proof.
  intros Hcalc Hempty Hser Hacc.
  destruct variant, request as [v | callback]; unfold_hooks; unfold_monad;
    cbn in *;
    try (destruct (truthy v); cbn in *; injection Hcalc as <-);
    try discriminate;
    try rewrite Hcalc; cbn; rewrite Hempty, Hser; cbn; rewrite Hacc;
    reflexivity.
Qed.

Lemma update_aborted (w : World) (request : Request) (c error : Val) :
  Utils.calculateNewValue request stored = Ok c ->
  isEmptyValue c = false ->
  serialize c = Throw error ->
  updateValue hook request w
  = (Ok tt, afterWarn (AbortingStateUpdate key error) w).
Proof.
  intros Hcalc Hempty Hser.
  destruct variant, request as [v | callback]; unfold_hooks; unfold_monad;
    cbn in *;
    try (destruct (truthy v); cbn in *; injection Hcalc as <-);
    try discriminate;
    try rewrite Hcalc; cbn; rewrite Hempty, Hser; reflexivity.
Qed.

(** The ways an update can go; it prints a diagnostic in the last one
    only, when the serializer or the backend throws. *)
Lemma update_cases (w : World) (request : Request) :
  (exists error,
     Utils.calculateNewValue request stored = Throw error /\
     updateValue hook request w = (Throw error, w)) \/
  (exists c,
     Utils.calculateNewValue request stored = Ok c /\
     isEmptyValue c = true /\
     updateValue hook request w
     = (Ok tt, afterSetValue VNull (afterRemoveItem backend key w))) \/
  (exists c s,
     Utils.calculateNewValue request stored = Ok c /\
     isEmptyValue c = false /\
     serialize c = Ok s /\
     accepts w backend key s /\
     updateValue hook request w
     = (Ok tt, afterSetValue c (afterSetItem backend key s w))) \/
  (exists c error,
     Utils.calculateNewValue request stored = Ok c /\
     isEmptyValue c = false /\
     (serialize c = Throw error \/
      exists s,
        serialize c = Ok s /\
        refusal w backend (records backend w) key s = Some error) /\
     updateValue hook request w
     = (Ok tt, afterWarn (AbortingStateUpdate key error) w)).
Proof.
  destruct (Utils.calculateNewValue request stored)
    as [c | error] eqn:Hcalc.
  - destruct (isEmptyValue c) eqn:Hempty.
    + right; left. exists c. eauto using update_empty.
    + destruct (serialize c) as [s | error] eqn:Hser.
      * destruct (refusal w backend (records backend w) key s)
          as [error |] eqn:Hacc.
        -- right; right; right. exists c, error.
           split; [reflexivity |]. split; [exact Hempty |].
           split; [right; exists s; auto |].
           eapply update_refused; eassumption.
        -- right; right; left. exists c, s.
           split; [reflexivity |]. split; [exact Hempty |].
           split; [exact Hser |]. split; [exact Hacc |].
           eapply update_stored; eassumption.
      * right; right; right. exists c, error.
        split; [reflexivity |]. split; [exact Hempty |].
        split; [left; exact Hser |].
        eapply update_aborted; eassumption.
  - left. exists error. eauto using update_escapes.
Qed.

(** *** Storage events *)

Lemma storage_event_session (w : World) (event : StorageEvent) :
  backend = sessionStorage ->
  dispatch hook (StorageChange event) w = (Ok tt, w).
Proof.
  destruct variant; cbn; intros Hb; try discriminate; reflexivity.
Qed.

Lemma storage_event_other_key (w : World) (event : StorageEvent) :
  sameKey (eventKey event) key = false ->
  dispatch hook (StorageChange event) w = (Ok tt, w).
Proof.
  intros Hkey.
  destruct variant; unfold_hooks; unfold_monad; cbn;
    try rewrite Hkey; reflexivity.
Qed.

Lemma storage_event_cleared (w : World) (event : StorageEvent) :
  backend = localStorage ->
  sameKey (eventKey event) key = true ->
  truthyItem (eventNewValue event) = None ->
  dispatch hook (StorageChange event) w = (Ok tt, afterSetValue VNull w).
Proof.
  intros Hb Hkey Hnew.
  destruct variant; try discriminate; unfold_hooks; unfold_monad; cbn;
    rewrite Hkey, Hnew; reflexivity.
Qed.

Lemma storage_event_adopted (w : World) (event : StorageEvent)
    (raw : string) (v : Val) :
  backend = localStorage ->
  sameKey (eventKey event) key = true ->
  truthyItem (eventNewValue event) = Some raw ->
  deserialize raw = Ok v ->
  dispatch hook (StorageChange event) w = (Ok tt, afterSetValue v w).
Proof.
  intros Hb Hkey Hnew Hraw.
  destruct variant; try discriminate; unfold_hooks; unfold_monad; cbn;
    rewrite Hkey, Hnew, Hraw; reflexivity.
Qed.

Lemma storage_event_dropped (w : World) (event : StorageEvent)
    (raw : string) (error : Val) :
  backend = localStorage ->
  sameKey (eventKey event) key = true ->
  truthyItem (eventNewValue event) = Some raw ->
  deserialize raw = Throw error ->
  dispatch hook (StorageChange event) w
  = (Ok tt, afterWarn (AbortingAutomaticStateUpdate key error) w).
Proof.
  intros Hb Hkey Hnew Hraw.
  destruct variant; try discriminate; unfold_hooks; unfold_monad; cbn;
    rewrite Hkey, Hnew, Hraw; reflexivity.
Qed.

(** The worlds an activation can end in. *)
Lemma activate_shape (w : World) :
  (exists raw v,
     truthyItem (recordOf backend key w) = Some raw /\
     deserialize raw = Ok v /\
     activate hook w = (Ok tt, afterSetLoading false (afterSetValue v w))) \/
  exists w0,
    (truthyItem (recordOf backend key w) = None /\ w0 = w \/
     exists raw error,
       truthyItem (recordOf backend key w) = Some raw /\
       deserialize raw = Throw error /\
       w0 = afterRemoveItem backend key
              (afterWarn (parseWarning variant key error) w)) /\
    truthyItem (recordOf backend key w0) = None /\
    ((exists s,
        isDefined defaultValue = true /\
        serialize defaultValue = Ok s /\
        accepts w0 backend key s /\
        activate hook w
        = (Ok tt,
           afterSetLoading false
             (afterSetValue defaultValue (afterSetItem backend key s w0)))) \/
     (isDefined defaultValue = true /\
      (exists error,
         serialize defaultValue = Throw error \/
         exists s,
           serialize defaultValue = Ok s /\
           refusal w0 backend (records backend w0) key s = Some error) /\
      activate hook w
      = (Ok tt,
         afterSetLoading false
           (afterSetValue VNull
              (afterWarn DefaultValueCannotBeSerialized w0)))) \/
     (isDefined defaultValue = false /\
      activate hook w
      = (Ok tt, afterSetLoading false (afterSetValue VNull w0)))).
Proof.
  assert (Habsent : forall w0,
            truthyItem (recordOf backend key w0) = None ->
            (exists s,
               isDefined defaultValue = true /\
               serialize defaultValue = Ok s /\
               accepts w0 backend key s /\
               activate hook w0
               = (Ok tt,
                  afterSetLoading false
                    (afterSetValue defaultValue
                       (afterSetItem backend key s w0)))) \/
            (isDefined defaultValue = true /\
             (exists error,
                serialize defaultValue = Throw error \/
                exists s,
                  serialize defaultValue = Ok s /\
                  refusal w0 backend (records backend w0) key s
                  = Some error) /\
             activate hook w0
             = (Ok tt,
                afterSetLoading false
                  (afterSetValue VNull
                     (afterWarn DefaultValueCannotBeSerialized w0)))) \/
            (isDefined defaultValue = false /\
             activate hook w0
             = (Ok tt, afterSetLoading false (afterSetValue VNull w0)))).
  { intros w0 Hitem.
    destruct (isDefined defaultValue) eqn:Hdef.
    - destruct (serialize defaultValue) as [s | error] eqn:Hser.
      + destruct (refusal w0 backend (records backend w0) key s)
          as [error |] eqn:Hacc.
        * right; left. split; [reflexivity |].
          split; [exists error; right; exists s; auto |].
          eapply activate_default_refused; eassumption.
        * left. exists s.
          split; [reflexivity |]. split; [reflexivity |].
          split; [exact Hacc |].
          eapply activate_default_stored; eassumption.
      + right; left. split; [reflexivity |].
        split; [exists error; left; reflexivity |].
        eapply activate_default_rejected; eassumption.
    - right; right. split; [reflexivity |].
      eapply activate_no_default; eassumption. }
  destruct (truthyItem (recordOf backend key w)) as [raw |] eqn:Hitem.
  - destruct (deserialize raw) as [v | error] eqn:Hraw.
    + left. exists raw, v. eauto using activate_usable.
    + right.
      exists (afterRemoveItem backend key
                (afterWarn (parseWarning variant key error) w)).
      assert (Hgone : truthyItem
                        (recordOf backend key
                           (afterRemoveItem backend key
                              (afterWarn (parseWarning variant key error) w)))
                      = None).
      { rewrite recordOf_afterRemoveItem. reflexivity. }
      split; [right; exists raw, error; auto |].
      split; [exact Hgone |].
      rewrite (activate_corrupt w raw error Hitem Hraw).
      apply Habsent, Hgone.
  - right. exists w. split; [left; auto |]. split; [exact Hitem |].
    apply Habsent, Hitem.
Qed.

(** The worlds a storage event can lead to. *)
Lemma storage_event_shape (w : World) (event : StorageEvent) :
  dispatch hook (StorageChange event) w = (Ok tt, w) \/
  (exists v,
     backend = localStorage /\
     sameKey (eventKey event) key = true /\
     dispatch hook (StorageChange event) w = (Ok tt, afterSetValue v w)) \/
  (exists raw error,
     backend = localStorage /\
     sameKey (eventKey event) key = true /\
     truthyItem (eventNewValue event) = Some raw /\
     deserialize raw = Throw error /\
     dispatch hook (StorageChange event) w
     = (Ok tt, afterWarn (AbortingAutomaticStateUpdate key error) w)).
Proof.
  destruct (sameKey (eventKey event) key) eqn:Hkey;
    [| left; apply storage_event_other_key; exact Hkey].
  destruct backend eqn:Hb;
    [| left; apply storage_event_session; exact Hb].
  destruct (truthyItem (eventNewValue event)) as [raw |] eqn:Hnew.
  - destruct (deserialize raw) as [v | error] eqn:Hraw.
    + right; left. exists v. eauto using storage_event_adopted.
    + right; right. exists raw, error. eauto 6 using storage_event_dropped.
  - right; left. exists VNull. eauto using storage_event_cleared.
Qed.

End Paths.

(** ** Properties *)

Section Properties.

Variable variant : Variant.
Variable key : string.
Variable defaultValue : Val.
Variable serialize : Val -> Outcome string.
Variable deserialize : string -> Outcome Val.

(** The state value read by the render whose update function is called. *)
Variable storedValue : Val.

Local Abbreviation hook :=
  (hookOf variant key defaultValue serialize deserialize storedValue).
Local Abbreviation backend := (backendOf variant).

Lemma falsy_values (v : Val) :
  truthy v = false <->
  v = VNull \/ v = VUndefined \/ v = VNum 0 \/ v = VStr "" \/
  v = VBool false \/ v = VNaN.
Proof.
  split.
  - destruct v as [| | [] | n | | s | |]; cbn; intros H; try discriminate;
      auto 10.
    + apply negb_false_iff, Z.eqb_eq in H. subst. auto 10.
    + apply negb_false_iff, String.eqb_eq in H. subst. auto 10.
  - intros [-> | [-> | [-> | [-> | [-> | ->]]]]]; reflexivity.
Qed.

Lemma falsy_is_empty_after_coercion (v : Val) :
  isEmptyValue (if negb (truthy v) then VNull else v) = negb (truthy v).
Proof.
  destruct v as [| | [] | n | | s | |]; try reflexivity.
  - destruct n; reflexivity.
  - destruct s; reflexivity.
Qed.

(** C1 (amended). An update whose computed value is empty -- [null],
    [undefined] or [""] -- never writes: the hook removes the key, no record
    is left under it and the current value becomes [null]; this is what
    [update(null)], [update(undefined)] and [update("")] do, and a record
    that an update does write is the serialization of a value that is not
    empty.  The initial load tests the default against [undefined] only: an
    undefined default is not written, while a default of [null] or [""] is
    serialized and, when the backend takes the write, stored and adopted
    like any other default; when the backend refuses the write, nothing is
    stored and the current value is [null]. *)
Theorem C1_empty_values_on_write_paths (w : World) :
  (forall request c,
     Utils.calculateNewValue request storedValue = Ok c ->
     isEmptyValue c = true ->
     exists w',
       updateValue hook request w = (Ok tt, w') /\
       recordOf backend key w' = None /\
       currentValue w' = VNull /\
       backendCalls w'
       = (backendCalls w ++ [RemoveItem backend key])%list) /\
  (forall v,
     v = VNull \/ v = VUndefined \/ v = VStr "" ->
     exists w',
       updateValue hook (Literal v) w = (Ok tt, w') /\
       recordOf backend key w' = None /\
       currentValue w' = VNull) /\
  (forall request o w' storage k s,
     updateValue hook request w = (o, w') ->
     In (SetItem storage k s) (backendCalls w') ->
     In (SetItem storage k s) (backendCalls w) \/
     exists c,
       Utils.calculateNewValue request storedValue = Ok c /\
       isEmptyValue c = false /\ serialize c = Ok s) /\
  (isDefined defaultValue = false ->
   exists w',
     activate hook w = (Ok tt, w') /\
     forall storage k s,
       In (SetItem storage k s) (backendCalls w') ->
       In (SetItem storage k s) (backendCalls w)) /\
  (forall s,
     truthyItem (recordOf backend key w) = None ->
     isDefined defaultValue = true ->
     serialize defaultValue = Ok s ->
     accepts w backend key s ->
     exists w',
       activate hook w = (Ok tt, w') /\
       recordOf backend key w' = Some s /\
       currentValue w' = defaultValue /\
       backendCalls w'
       = (backendCalls w ++ [SetItem backend key s])%list) /\
  (forall s error,
     truthyItem (recordOf backend key w) = None ->
     isDefined defaultValue = true ->
     serialize defaultValue = Ok s ->
     refusal w backend (records backend w) key s = Some error ->
     exists w',
       activate hook w = (Ok tt, w') /\
       recordOf backend key w' = recordOf backend key w /\
       currentValue w' = VNull /\
       backendCalls w' = backendCalls w).
Proof.
  assert (Hclear : forall request c,
            Utils.calculateNewValue request storedValue = Ok c ->
            isEmptyValue c = true ->
            exists w',
              updateValue hook request w = (Ok tt, w') /\
              recordOf backend key w' = None /\
              currentValue w' = VNull /\
              backendCalls w'
              = (backendCalls w ++ [RemoveItem backend key])%list).
  { intros request c Hcalc Hempty.
    eexists. split; [eapply update_empty; eassumption |].
    repeat split.
    - rewrite recordOf_afterSetValue. apply recordOf_afterRemoveItem.
    - destruct variant; reflexivity. }
  split; [exact Hclear |].
  split; [| split; [| split; [| split]]].
  - intros v Hv.
    destruct (Hclear (Literal v) VNull) as (w' & Hup & Hrec & Hval & _).
    + destruct Hv as [-> | [-> | ->]]; reflexivity.
    + reflexivity.
    + eauto.
  - intros request o w' storage k s Hup Hin.
    destruct (update_cases variant key defaultValue serialize deserialize
                storedValue w request)
      as [(e & Hc & Hu) | [(c & Hc & He & Hu)
         | [(c & s' & Hc & He & Hs & Hacc & Hu)
           | (c & e & Hc & He & Hs & Hu)]]];
      rewrite Hu in Hup; injection Hup as <- <-.
    + left. exact Hin.
    + left. destruct variant; cbn in Hin;
        apply in_app_or in Hin as [Hin | [Hin | []]];
        first [exact Hin | discriminate].
    + destruct variant; cbn in Hin;
        apply in_app_or in Hin as [Hin | [Hin | []]];
        first [left; exact Hin
              | right; injection Hin as <- <- <-; eauto].
    + left. exact Hin.
  - intros Hdef.
    destruct (truthyItem (recordOf backend key w)) as [raw |] eqn:Hitem.
    + destruct (deserialize raw) as [v | error] eqn:Hraw.
      * eexists. split; [eapply activate_usable; eassumption |].
        intros storage k s Hin. exact Hin.
      * eexists. split.
        { erewrite activate_corrupt by eassumption.
          apply activate_no_default; [| exact Hdef].
          rewrite recordOf_afterRemoveItem. reflexivity. }
        intros storage k s Hin.
        destruct variant; cbn in Hin;
          apply in_app_or in Hin as [Hin | [Hin | []]];
          first [exact Hin | discriminate].
    + eexists. split; [eapply activate_no_default; eassumption |].
      intros storage k s Hin. exact Hin.
  - intros s Hitem Hdef Hser Hacc.
    eexists. split; [eapply activate_default_stored; eassumption |].
    repeat split.
    + rewrite recordOf_afterSetLoading, recordOf_afterSetValue.
      apply recordOf_afterSetItem.
    + destruct variant; reflexivity.
  - intros s error Hitem Hdef Hser Hacc.
    eexists. split; [eapply activate_default_refused; eassumption |].
    repeat split.
Qed.


(** C3. When the value computed for an update is not empty and serializing
    it throws, the update returns normally, both backends hold what they
    held, no backend call is issued, the current value and the loading flag
    are what they were, and exactly one diagnostic is printed. *)
Theorem C3_failed_serialization_aborts_update (request : Request)
    (c error : Val) (w : World) :
  Utils.calculateNewValue request storedValue = Ok c ->
  isEmptyValue c = false ->
  serialize c = Throw error ->
  exists w',
    updateValue hook request w = (Ok tt, w') /\
    localRecords w' = localRecords w /\
    sessionRecords w' = sessionRecords w /\
    backendCalls w' = backendCalls w /\
    currentValue w' = currentValue w /\
    loading w' = loading w /\
    console w' = (console w ++ [AbortingStateUpdate key error])%list.
Proof.
  intros Hcalc Hempty Hser.
  eexists. split.
  - eapply update_aborted; eassumption.
  - repeat split.
Qed.

(** C4 (amended). Activation, the storage-event listener and every update
    whose request is a literal or an updater that returns end normally,
    whatever the record, the default, the serializer pair and the backend
    do.  An exception thrown by an updater function is not caught: it
    leaves the update function, with the world as it was.  Every failure
    that is caught -- of the deserializer, of the serializer, or of the
    backend refusing a write -- prints a diagnostic and leaves the current
    value at the default, at [null], or unchanged. *)
Theorem C4_only_updater_exceptions_escape (w : World) :
  (exists w', activate hook w = (Ok tt, w')) /\
  (forall event, fst (dispatch hook (StorageChange event) w) = Ok tt) /\
  (forall v, fst (updateValue hook (Literal v) w) = Ok tt) /\
  (forall request c,
     Utils.calculateNewValue request storedValue = Ok c ->
     fst (updateValue hook request w) = Ok tt) /\
  (forall callback error,
     callback storedValue = Throw error ->
     updateValue hook (Updater callback) w = (Throw error, w)) /\
  (forall raw error,
     truthyItem (recordOf backend key w) = Some raw ->
     deserialize raw = Throw error ->
     exists w' rest,
       activate hook w = (Ok tt, w') /\
       console w'
       = (console w ++ parseWarning variant key error :: rest)%list /\
       (currentValue w' = defaultValue \/ currentValue w' = VNull)) /\
  (forall error,
     truthyItem (recordOf backend key w) = None ->
     isDefined defaultValue = true ->
     serialize defaultValue = Throw error ->
     exists w',
       activate hook w = (Ok tt, w') /\
       console w' = (console w ++ [DefaultValueCannotBeSerialized])%list /\
       currentValue w' = VNull) /\
  (forall request c error,
     Utils.calculateNewValue request storedValue = Ok c ->
     isEmptyValue c = false ->
     serialize c = Throw error ->
     updateValue hook request w
     = (Ok tt, afterWarn (AbortingStateUpdate key error) w)) /\
  (forall event raw error,
     backend = localStorage ->
     sameKey (eventKey event) key = true ->
     truthyItem (eventNewValue event) = Some raw ->
     deserialize raw = Throw error ->
     dispatch hook (StorageChange event) w
     = (Ok tt, afterWarn (AbortingAutomaticStateUpdate key error) w)) /\
  (forall request c s error,
     Utils.calculateNewValue request storedValue = Ok c ->
     isEmptyValue c = false ->
     serialize c = Ok s ->
     refusal w backend (records backend w) key s = Some error ->
     updateValue hook request w
     = (Ok tt, afterWarn (AbortingStateUpdate key error) w)) /\
  (forall s error,
     truthyItem (recordOf backend key w) = None ->
     isDefined defaultValue = true ->
     serialize defaultValue = Ok s ->
     refusal w backend (records backend w) key s = Some error ->
     exists w',
       activate hook w = (Ok tt, w') /\
       console w' = (console w ++ [DefaultValueCannotBeSerialized])%list /\
       currentValue w' = VNull).
Proof.
  assert (Hupd : forall request c,
            Utils.calculateNewValue request storedValue = Ok c ->
            fst (updateValue hook request w) = Ok tt).
  { intros request c Hcalc.
    destruct (update_cases variant key defaultValue serialize deserialize
                storedValue w request)
      as [(e & Hc & Hu) | [(c' & Hc & He & Hu)
         | [(c' & s' & Hc & He & Hs & Hacc & Hu)
           | (c' & e & Hc & He & Hs & Hu)]]];
      rewrite Hu; [congruence | reflexivity ..]. }
  repeat apply conj.
  - destruct (activate_returns variant key defaultValue serialize
                deserialize storedValue w) as (w' & Hact & _).
    eauto.
  - intros event.
    destruct (sameKey (eventKey event) key) eqn:Hkey;
      [| rewrite storage_event_other_key by exact Hkey; reflexivity].
    destruct backend eqn:Hb;
      [| rewrite storage_event_session by exact Hb; reflexivity].
    destruct (truthyItem (eventNewValue event)) as [raw |] eqn:Hnew;
      [| rewrite storage_event_cleared by assumption; reflexivity].
    destruct (deserialize raw) as [v | error] eqn:Hraw.
    + erewrite storage_event_adopted by eassumption. reflexivity.
    + erewrite storage_event_dropped by eassumption. reflexivity.
  - intros v.
    apply (Hupd (Literal v) (if negb (truthy v) then VNull else v)).
    cbn. destruct (truthy v); reflexivity.
  - exact Hupd.
  - intros callback error Hcb. apply update_escapes. exact Hcb.
  - intros raw error Hitem Hraw.
    erewrite activate_corrupt by eassumption.
    set (w1 := afterRemoveItem backend key
                 (afterWarn (parseWarning variant key error) w)).
    assert (Hgone : truthyItem (recordOf backend key w1) = None).
    { unfold w1. rewrite recordOf_afterRemoveItem. reflexivity. }
    assert (Hcons : console w1
                    = (console w ++ [parseWarning variant key error])%list).
    { unfold w1. destruct variant; reflexivity. }
    destruct (isDefined defaultValue) eqn:Hdef.
    + destruct (serialize defaultValue) as [s | error'] eqn:Hser.
      * destruct (refusal w1 backend (records backend w1) key s)
          as [error' |] eqn:Hacc.
        -- eexists. exists [DefaultValueCannotBeSerialized]. split;
             [eapply activate_default_refused; eassumption |].
           split; [| right; reflexivity].
           cbn. rewrite Hcons. rewrite <- app_assoc. reflexivity.
        -- eexists. exists []. split;
             [eapply activate_default_stored; eassumption |].
           split; [| left; reflexivity].
           cbn. rewrite <- Hcons. destruct variant; reflexivity.
      * eexists. exists [DefaultValueCannotBeSerialized]. split;
          [eapply activate_default_rejected; eassumption |].
        split; [| right; reflexivity].
        cbn. rewrite Hcons. rewrite <- app_assoc. reflexivity.
    + eexists. exists []. split;
        [eapply activate_no_default; eassumption |].
      split; [| right; reflexivity].
      cbn. exact Hcons.
  - intros error Hitem Hdef Hser.
    eexists. split; [eapply activate_default_rejected; eassumption |].
    split; reflexivity.
  - intros request c error Hcalc Hempty Hser.
    eapply update_aborted; eassumption.
  - intros event raw error Hb Hkey Hnew Hraw.
    eapply storage_event_dropped; eassumption.
  - intros request c s error Hcalc Hempty Hser Hacc.
    eapply update_refused; eassumption.
  - intros s error Hitem Hdef Hser Hacc.
    eexists. split; [eapply activate_default_refused; eassumption |].
    split; reflexivity.
Qed.

(** C5 (amended). When the record under the key is a non-empty string that
    fails to deserialize, the initial load prints a diagnostic, removes the
    record and goes on to the default path; with a defined default [d] whose
    serialization succeeds and is taken by the backend it then stores
    [serialize(d)] and adopts [d], so the record afterwards is
    [serialize(d)]; when the backend refuses the write, a second diagnostic
    is printed, no record is left and the current value is [null].  A
    defined default whose serialization the backend takes is written on
    activation if and only if no usable record was found, a record being
    usable when it is a non-empty string that deserializes.  A record that is
    the empty string is treated as absent: it is not deserialized, not
    removed and not reported. *)
Theorem C5_corrupt_record_recovery (w : World) :
  (forall raw error s,
     truthyItem (recordOf backend key w) = Some raw ->
     deserialize raw = Throw error ->
     isDefined defaultValue = true ->
     serialize defaultValue = Ok s ->
     refusal w backend (delete key (records backend w)) key s = None ->
     exists w',
       activate hook w = (Ok tt, w') /\
       currentValue w' = defaultValue /\
       recordOf backend key w' = Some s /\
       backendCalls w'
       = (backendCalls w
          ++ [RemoveItem backend key; SetItem backend key s])%list /\
       console w' = (console w ++ [parseWarning variant key error])%list) /\
  (forall raw error,
     truthyItem (recordOf backend key w) = Some raw ->
     deserialize raw = Throw error ->
     exists w' calls rest,
       activate hook w = (Ok tt, w') /\
       backendCalls w'
       = (backendCalls w ++ RemoveItem backend key :: calls)%list /\
       console w'
       = (console w ++ parseWarning variant key error :: rest)%list) /\
  (forall s w',
     isDefined defaultValue = true ->
     serialize defaultValue = Ok s ->
     alwaysAccepts w backend key s ->
     activate hook w = (Ok tt, w') ->
     (exists calls,
        backendCalls w'
        = (backendCalls w ++ calls ++ [SetItem backend key s])%list)
     <-> ~ usableRecord deserialize (recordOf backend key w)) /\
  (recordOf backend key w = Some "" ->
   isDefined defaultValue = false ->
   exists w',
     activate hook w = (Ok tt, w') /\
     recordOf backend key w' = Some "" /\
     backendCalls w' = backendCalls w /\
     console w' = console w /\
     currentValue w' = VNull) /\
  (forall raw error s refused,
     truthyItem (recordOf backend key w) = Some raw ->
     deserialize raw = Throw error ->
     isDefined defaultValue = true ->
     serialize defaultValue = Ok s ->
     refusal w backend (delete key (records backend w)) key s
     = Some refused ->
     exists w',
       activate hook w = (Ok tt, w') /\
       currentValue w' = VNull /\
       recordOf backend key w' = None /\
       backendCalls w' = (backendCalls w ++ [RemoveItem backend key])%list /\
       console w'
       = (console w
          ++ [parseWarning variant key error;
              DefaultValueCannotBeSerialized])%list).
Proof.
  repeat apply conj.
  - intros raw error s Hitem Hraw Hdef Hser Hacc.
    erewrite activate_corrupt by eassumption.
    eexists. split.
    { eapply activate_default_stored; [| exact Hdef | exact Hser |].
      - rewrite recordOf_afterRemoveItem. reflexivity.
      - unfold accepts. destruct variant; exact Hacc. }
    repeat split.
    + rewrite recordOf_afterSetLoading, recordOf_afterSetValue.
      apply recordOf_afterSetItem.
    + destruct variant; cbn; rewrite <- app_assoc; reflexivity.
    + destruct variant; reflexivity.
  - intros raw error Hitem Hraw.
    erewrite activate_corrupt by eassumption.
    set (w1 := afterRemoveItem backend key
                 (afterWarn (parseWarning variant key error) w)).
    assert (Hgone : truthyItem (recordOf backend key w1) = None).
    { unfold w1. rewrite recordOf_afterRemoveItem. reflexivity. }
    assert (Hw1 : backendCalls w1
                  = (backendCalls w ++ [RemoveItem backend key])%list /\
                  console w1
                  = (console w ++ [parseWarning variant key error])%list).
    { unfold w1. destruct variant; split; reflexivity. }
    destruct Hw1 as [Hcalls Hcons].
    destruct (isDefined defaultValue) eqn:Hdef.
    + destruct (serialize defaultValue) as [s | error'] eqn:Hser.
      * destruct (refusal w1 backend (records backend w1) key s)
          as [refused |] eqn:Hacc.
        { eexists. exists [], [DefaultValueCannotBeSerialized]. split;
            [eapply activate_default_refused; eassumption |].
          split.
          - rewrite <- Hcalls. reflexivity.
          - cbn. rewrite Hcons, <- app_assoc. reflexivity. }
        eexists. exists [SetItem backend key s], []. split;
          [eapply activate_default_stored; eassumption |].
        split.
        -- transitivity (backendCalls w1 ++ [SetItem backend key s])%list;
             [destruct variant; reflexivity |].
           rewrite Hcalls, <- app_assoc. reflexivity.
        -- rewrite <- Hcons. destruct variant; reflexivity.
      * eexists. exists [], [DefaultValueCannotBeSerialized]. split;
          [eapply activate_default_rejected; eassumption |].
        split.
        -- rewrite <- Hcalls. reflexivity.
        -- cbn. rewrite Hcons, <- app_assoc. reflexivity.
    + eexists. exists [], []. split;
        [eapply activate_no_default; eassumption |].
      split; [rewrite <- Hcalls | rewrite <- Hcons]; reflexivity.
  - intros s w' Hdef Hser Hacc Hact.
    destruct (truthyItem (recordOf backend key w)) as [raw |] eqn:Hitem.
    + destruct (deserialize raw) as [v | error] eqn:Hraw.
      * erewrite activate_usable in Hact by eassumption.
        injection Hact as <-. split.
        -- intros [calls Hcalls]. cbn in Hcalls.
           apply (f_equal length) in Hcalls.
           rewrite !length_app in Hcalls. cbn in Hcalls. lia.
        -- intros Hnot. exfalso. apply Hnot. exists raw, v. auto.
      * erewrite activate_corrupt in Hact by eassumption.
        erewrite activate_default_stored in Hact;
          [| rewrite recordOf_afterRemoveItem; reflexivity
           | exact Hdef | exact Hser
           | unfold accepts; destruct variant; apply Hacc].
        injection Hact as <-. split.
        -- intros _ (raw' & v & Hitem' & Hraw').
           rewrite Hitem in Hitem'. injection Hitem' as <-. congruence.
        -- intros _. exists [RemoveItem backend key].
           destruct variant; cbn; rewrite <- app_assoc; reflexivity.
    + erewrite activate_default_stored in Hact;
        [| exact Hitem | exact Hdef | exact Hser | apply Hacc].
      injection Hact as <-. split.
      * intros _ (raw' & v & Hitem' & _). rewrite Hitem in Hitem'.
        discriminate.
      * intros _. exists []. destruct variant; reflexivity.
  - intros Hrec Hdef.
    eexists. split.
    { apply activate_no_default; [| exact Hdef]. rewrite Hrec. reflexivity. }
    repeat split.
    rewrite recordOf_afterSetLoading, recordOf_afterSetValue. exact Hrec.
  - intros raw error s refused Hitem Hraw Hdef Hser Hacc.
    erewrite activate_corrupt by eassumption.
    eexists. split.
    { eapply activate_default_refused; [| exact Hdef | exact Hser |].
      - rewrite recordOf_afterRemoveItem. reflexivity.
      - destruct variant; exact Hacc. }
    repeat split.
    + rewrite recordOf_afterSetLoading, recordOf_afterSetValue,
        recordOf_afterWarn.
      apply recordOf_afterRemoveItem.
    + destruct variant; reflexivity.
    + destruct variant; cbn; rewrite <- app_assoc; reflexivity.
Qed.

(** C6 (amended). When the record [r] under the key is a non-empty string
    that deserializes, the initial load adopts [deserialize(r)] as the
    current value, calls neither [setItem] nor [removeItem], leaves both
    backends and the console as they were, and ignores the default.  A
    record that is the empty string is treated as absent instead: the
    deserializer is not consulted and a defined default whose serialization
    succeeds and is taken by the backend replaces it. *)
Theorem C6_usable_record_is_adopted (w : World) :
  (forall raw v,
     truthyItem (recordOf backend key w) = Some raw ->
     deserialize raw = Ok v ->
     exists w',
       activate hook w = (Ok tt, w') /\
       currentValue w' = v /\
       loading w' = false /\
       localRecords w' = localRecords w /\
       sessionRecords w' = sessionRecords w /\
       backendCalls w' = backendCalls w /\
       console w' = console w) /\
  (forall s,
     recordOf backend key w = Some "" ->
     isDefined defaultValue = true ->
     serialize defaultValue = Ok s ->
     accepts w backend key s ->
     exists w',
       activate hook w = (Ok tt, w') /\
       currentValue w' = defaultValue /\
       recordOf backend key w' = Some s).
Proof.
  split.
  - intros raw v Hitem Hraw.
    eexists. split; [eapply activate_usable; eassumption |].
    repeat split.
  - intros s Hrec Hdef Hser Hacc.
    eexists. split.
    { eapply activate_default_stored; [| exact Hdef | exact Hser | exact Hacc].
      rewrite Hrec. reflexivity. }
    split; [reflexivity |].
    rewrite recordOf_afterSetLoading, recordOf_afterSetValue.
    apply recordOf_afterSetItem.
Qed.

(** C7 (amended). For the hooks on the persistent backend, a storage event
    whose key is the hook's key and whose new value is a non-empty string is
    deserialized and assigned to the current value; a new value that is
    absent or the empty string makes the current value [null] without the
    deserializer being consulted.  Neither issues a backend call or changes
    a backend or the console.  If the deserializer throws, one diagnostic is
    printed and nothing else changes.  An event for another key changes
    nothing. *)
Theorem C7_storage_event_bypasses_writer (event : StorageEvent) (w : World) :
  backend = localStorage ->
  (forall raw v,
     sameKey (eventKey event) key = true ->
     truthyItem (eventNewValue event) = Some raw ->
     deserialize raw = Ok v ->
     exists w',
       dispatch hook (StorageChange event) w = (Ok tt, w') /\
       currentValue w' = v /\
       localRecords w' = localRecords w /\
       sessionRecords w' = sessionRecords w /\
       backendCalls w' = backendCalls w /\
       console w' = console w /\
       loading w' = loading w) /\
  (sameKey (eventKey event) key = true ->
   eventNewValue event = None \/ eventNewValue event = Some "" ->
   exists w',
     dispatch hook (StorageChange event) w = (Ok tt, w') /\
     currentValue w' = VNull /\
     localRecords w' = localRecords w /\
     sessionRecords w' = sessionRecords w /\
     backendCalls w' = backendCalls w /\
     console w' = console w /\
     loading w' = loading w) /\
  (forall raw error,
     sameKey (eventKey event) key = true ->
     truthyItem (eventNewValue event) = Some raw ->
     deserialize raw = Throw error ->
     exists w',
       dispatch hook (StorageChange event) w = (Ok tt, w') /\
       currentValue w' = currentValue w /\
       localRecords w' = localRecords w /\
       sessionRecords w' = sessionRecords w /\
       backendCalls w' = backendCalls w /\
       console w'
       = (console w ++ [AbortingAutomaticStateUpdate key error])%list /\
       loading w' = loading w) /\
  (sameKey (eventKey event) key = false ->
   dispatch hook (StorageChange event) w = (Ok tt, w)).
Proof.
  intros Hb. repeat apply conj.
  - intros raw v Hkey Hnew Hraw.
    eexists. split; [eapply storage_event_adopted; eassumption |].
    repeat split.
  - intros Hkey Hnew.
    eexists. split.
    { apply storage_event_cleared; [exact Hb | exact Hkey |].
      destruct Hnew as [-> | ->]; reflexivity. }
    repeat split.
  - intros raw error Hkey Hnew Hraw.
    eexists. split; [eapply storage_event_dropped; eassumption |].
    repeat split.
  - intros Hkey. apply storage_event_other_key. exact Hkey.
Qed.

(** C8 (amended). Round trip, for a serializer pair in which [deserialize]
    undoes [serialize]: after [update(v)] with a truthy value [v] that is not
    a function, whose serialization succeeds and is taken by the backend,
    the backend holds a record under the key that deserializes to [v]; for
    an updater function the same holds of the value it returns, when that
    value is not [null], [undefined] or [""]. *)
Theorem C8_round_trip_of_stored_values (w : World) :
  leftInverse deserialize serialize ->
  (forall v s,
     truthy v = true ->
     serialize v = Ok s ->
     accepts w backend key s ->
     exists w' r,
       updateValue hook (Literal v) w = (Ok tt, w') /\
       recordOf backend key w' = Some r /\
       deserialize r = Ok v /\
       currentValue w' = v) /\
  (forall request c s,
     Utils.calculateNewValue request storedValue = Ok c ->
     isEmptyValue c = false ->
     serialize c = Ok s ->
     accepts w backend key s ->
     exists w' r,
       updateValue hook request w = (Ok tt, w') /\
       recordOf backend key w' = Some r /\
       deserialize r = Ok c /\
       currentValue w' = c).
Proof.
  intros Hinv.
  assert (Hgen : forall request c s,
            Utils.calculateNewValue request storedValue = Ok c ->
            isEmptyValue c = false ->
            serialize c = Ok s ->
            accepts w backend key s ->
            exists w' r,
              updateValue hook request w = (Ok tt, w') /\
              recordOf backend key w' = Some r /\
              deserialize r = Ok c /\
              currentValue w' = c).
  { intros request c s Hcalc Hempty Hser Hacc.
    eexists. exists s. split; [eapply update_stored; eassumption |].
    split; [| split; [apply Hinv, Hser | reflexivity]].
    rewrite recordOf_afterSetValue. apply recordOf_afterSetItem. }
  split; [| exact Hgen].
  intros v s Hv Hser Hacc.
  apply Hgen with (s := s); [| | exact Hser | exact Hacc].
  - cbn. rewrite Hv. reflexivity.
  - pose proof (falsy_is_empty_after_coercion v) as H.
    rewrite Hv in H. exact H.
Qed.

(** C9. The initial-load routine returns [true] on every control path, in
    the helper and in both inline versions, and never throws; so every hook
    ends its activation normally with the loading flag [false]. *)
Theorem C9_initial_load_always_resolves (storage : StorageRef) (w : World) :
  fst (Utils.setInitialValue storage key defaultValue setStoredValue
         deserialize serialize w) = Ok true /\
  fst (Inline.useLocalState_setInitialValue key defaultValue serialize
         deserialize w) = Ok true /\
  fst (Inline.useSessionState_setInitialValue key defaultValue serialize
         deserialize w) = Ok true /\
  exists w', activate hook w = (Ok tt, w') /\ loading w' = false.
Proof.
  repeat split.
  - unfold Utils.setInitialValue, bind, try_catch, eval, ret, getItem,
      setItem, removeItem, console_warn, setStoredValue.
    destruct (truthyItem (records storage w !! key)) as [raw|];
      [destruct (deserialize raw)|];
      destruct (isDefined defaultValue);
      try destruct (serialize defaultValue); cbn;
      repeat match goal with
             | |- context [refusal ?a ?b ?c ?d ?e] =>
                 destruct (refusal a b c d e)
             end;
      reflexivity.
  - unfold Inline.useLocalState_setInitialValue, bind, try_catch, eval, ret,
      getItem, setItem, removeItem, console_warn, setStoredValue.
    destruct (truthyItem (records localStorage w !! key)) as [raw|];
      [destruct (deserialize raw)|];
      destruct (isDefined defaultValue);
      try destruct (serialize defaultValue); cbn;
      repeat match goal with
             | |- context [refusal ?a ?b ?c ?d ?e] =>
                 destruct (refusal a b c d e)
             end;
      reflexivity.
  - unfold Inline.useSessionState_setInitialValue, bind, try_catch, eval,
      ret, getItem, setItem, removeItem, console_warn, setStoredValue.
    destruct (truthyItem (records sessionStorage w !! key)) as [raw|];
      [destruct (deserialize raw)|];
      destruct (isDefined defaultValue);
      try destruct (serialize defaultValue); cbn;
      repeat match goal with
             | |- context [refusal ?a ?b ?c ?d ?e] =>
                 destruct (refusal a b c d e)
             end;
      reflexivity.
  - apply activate_returns.
Qed.

End Properties.
(** ** The inline hooks and the hooks composed from the helpers *)

Section Refinement.

Variable variant : Variant.
Variable key : string.
Variable defaultValue : Val.
Variable serialize : Val -> Outcome string.
Variable deserialize : string -> Outcome Val.

Local Abbreviation inlineHook :=
  (hookOf variant key defaultValue serialize deserialize).
Local Abbreviation sharedHook :=
  (hookOf (refactored variant) key defaultValue serialize deserialize).

Ltac same_worlds w1 w2 H :=
  destruct w1, w2; unfold alike, observe in H; cbn in H;
  destruct H as [H ->]; injection H as -> -> -> -> ->.

Ltac step_cases :=
  repeat match goal with
         | |- context [truthyItem ?x] => destruct (truthyItem x); cbn
         | |- context [sameKey ?x ?y] => destruct (sameKey x y); cbn
         | |- context [deserialize ?x] => destruct (deserialize x); cbn
         | |- context [isDefined ?x] => destruct (isDefined x); cbn
         | |- context [truthy ?x] => destruct (truthy x); cbn
         | |- context [match ?f ?x with Ok _ => _ | Throw _ => _ end] =>
             destruct (f x); cbn
         | |- context [isEmptyValue ?x] => destruct (isEmptyValue x); cbn
         | |- context [match ?f ?a ?b ?c ?d with Some _ => _ | None => _ end] =>
             destruct (f a b c d); cbn
         end.

Lemma activate_alike (stored1 stored2 : Val) (w1 w2 : World) :
  alike w1 w2 ->
  fst (activate (inlineHook stored1) w1)
  = fst (activate (sharedHook stored2) w2) /\
  alike (snd (activate (inlineHook stored1) w1))
    (snd (activate (sharedHook stored2) w2)).
Proof.
  intros H. same_worlds w1 w2 H.
  destruct variant; unfold refactored, alike, observe; unfold_hooks;
    unfold_monad; cbn;
    step_cases; repeat split; reflexivity.
Qed.

Lemma dispatch_alike (e : Event) (stored : Val) (w1 w2 : World) :
  e <> Rerender true ->
  alike w1 w2 ->
  fst (dispatch (inlineHook stored) e w1)
  = fst (dispatch (sharedHook stored) e w2) /\
  alike (snd (dispatch (inlineHook stored) e w1))
    (snd (dispatch (sharedHook stored) e w2)).
Proof.
  intros Hstable H. same_worlds w1 w2 H.
  destruct e as [[v | callback] | event | [|]];
    try (exfalso; apply Hstable; reflexivity);
    destruct variant; unfold refactored, alike, observe; unfold_hooks;
    unfold_monad; cbn;
    step_cases; repeat split; reflexivity.
Qed.

Lemma alike_currentValue (w1 w2 : World) :
  alike w1 w2 -> currentValue w1 = currentValue w2.
Proof.
  intros [H _]. unfold observe in H. congruence.
Qed.

Lemma handleAll_alike (events : list Event) (rendered : Val)
    (w1 w2 : World) :
  stableArguments events ->
  alike w1 w2 ->
  fst (handleAll inlineHook events rendered w1)
  = fst (handleAll sharedHook events rendered w2)
  /\ alike (snd (handleAll inlineHook events rendered w1))
        (snd (handleAll sharedHook events rendered w2)).
Proof.
  revert rendered w1 w2.
  induction events as [| e rest IH]; intros rendered w1 w2 Hstable H; cbn.
  - split; [reflexivity | exact H].
  - apply Forall_cons in Hstable as [He Hrest].
    assert (Hr : renderedAfter e rendered w1 = renderedAfter e rendered w2).
    { destruct e; cbn; [reflexivity | reflexivity |].
      apply alike_currentValue, H. }
    rewrite <- Hr.
    destruct (dispatch_alike e (renderedAfter e rendered w1) w1 w2 He H)
      as [Ho Hw].
    destruct (dispatch (inlineHook (renderedAfter e rendered w1)) e w1)
      as [o1 w1'].
    destruct (dispatch (sharedHook (renderedAfter e rendered w1)) e w2)
      as [o2 w2'].
    cbn in Ho, Hw. subst o2.
    destruct (IH (renderedAfter e rendered w1) w1' w2' Hrest Hw)
      as [Hos Hws].
    destruct (handleAll inlineHook rest (renderedAfter e rendered w1) w1')
      as [os1 w1''].
    destruct (handleAll sharedHook rest (renderedAfter e rendered w1) w2')
      as [os2 w2''].
    cbn in *. subst os2. split; [reflexivity | exact Hws].
Qed.

Lemma run_alike (events : list Event) (w : World) :
  stableArguments events ->
  fst (run inlineHook events w) = fst (run sharedHook events w) /\
  observe (snd (run inlineHook events w))
  = observe (snd (run sharedHook events w)).
Proof.
  intros Hstable. unfold run.
  destruct (activate_alike (currentValue w) (currentValue w) w w
              (conj eq_refl eq_refl)) as [Ho Hw].
  destruct (activate (inlineHook (currentValue w)) w) as [o1 w1].
  destruct (activate (sharedHook (currentValue w)) w) as [o2 w2].
  cbn in Ho, Hw. subst o2.
  destruct (handleAll_alike events (currentValue w) w1 w2 Hstable Hw)
    as [Hos [Hws _]].
  destruct (handleAll inlineHook events (currentValue w) w1) as [os1 w1'].
  destruct (handleAll sharedHook events (currentValue w) w2) as [os2 w2'].
  cbn in *. subst os2. split; [reflexivity | exact Hws].
Qed.

End Refinement.

(** The consoles are left out of [observe] for a reason: on a record that
    does not parse, the inline [useLocalState] and its successor print
    different warnings. *)
Lemma parse_warnings_differ :
  console
    (snd (activate
            (Inline.useLocalState "k" VUndefined Samples.tagSerialize
               Samples.tagDeserialize VNull)
            (Samples.seededWorld "k" "junk")))
  <> console
       (snd (activate
               (Shared.useLocalState "k" VUndefined Samples.tagSerialize
                  Samples.tagDeserialize VNull)
               (Samples.seededWorld "k" "junk"))).
Proof. discriminate. Qed.


(** ** Instances and counterexamples *)

Import Samples.

Local Abbreviation tagged variant defaultValue :=
  (hookOf variant "k" defaultValue tagSerialize tagDeserialize).
Local Abbreviation named variant :=
  (hookOf variant "k" john nameSerialize nameDeserialize).
Local Abbreviation emptyName := (VObj [("name", VStr "")]).

Lemma C1_witness :
  (exists w',
     updateValue (tagged SharedLocal VNull VNull)
       (Updater (fun prev => Ok (VStr ""))) emptyWorld = (Ok tt, w') /\
     recordOf localStorage "k" w' = None /\
     currentValue w' = VNull /\
     backendCalls w' = [RemoveItem localStorage "k"]) /\
  (exists w',
     updateValue (tagged SharedLocal VNull VNull) (Literal VNull) emptyWorld
     = (Ok tt, w') /\
     recordOf localStorage "k" w' = None /\
     currentValue w' = VNull) /\
  (In (SetItem localStorage "k" "sx") (backendCalls emptyWorld) \/
   exists c,
     Utils.calculateNewValue (Literal (VStr "x")) VNull = Ok c /\
     isEmptyValue c = false /\ tagSerialize c = Ok "sx") /\
  (exists w',
     activate (tagged SharedLocal VUndefined VNull) emptyWorld
     = (Ok tt, w') /\
     forall storage k s,
       In (SetItem storage k s) (backendCalls w') ->
       In (SetItem storage k s) (backendCalls emptyWorld)) /\
  (exists w',
     activate (tagged SharedLocal VNull VNull) emptyWorld = (Ok tt, w') /\
     recordOf localStorage "k" w' = Some "null" /\
     currentValue w' = VNull /\
     backendCalls w' = [SetItem localStorage "k" "null"]) /\
  (exists w',
     activate (tagged SharedLocal (VStr "d") VNull) fullWorld
     = (Ok tt, w') /\
     recordOf localStorage "k" w' = None /\
     currentValue w' = VNull /\
     backendCalls w' = []).
Proof.
  pose proof (C1_empty_values_on_write_paths SharedLocal "k" VNull
                tagSerialize tagDeserialize VNull emptyWorld)
    as (Hclear & Hlit & Hwritten & _ & Hdef & _).
  pose proof (C1_empty_values_on_write_paths SharedLocal "k" VUndefined
                tagSerialize tagDeserialize VNull emptyWorld)
    as (_ & _ & _ & Hnone & _).
  pose proof (C1_empty_values_on_write_paths SharedLocal "k" (VStr "d")
                tagSerialize tagDeserialize VNull fullWorld)
    as (_ & _ & _ & _ & _ & Hrefused).
  repeat apply conj.
  - apply (Hclear (Updater (fun prev => Ok (VStr ""))) (VStr ""));
      reflexivity.
  - apply (Hlit VNull). left. reflexivity.
  - apply (Hwritten (Literal (VStr "x")) (Ok tt)
             (afterSetValue (VStr "x")
                (afterSetItem localStorage "k" "sx" emptyWorld))
             localStorage "k" "sx").
    + reflexivity.
    + left. reflexivity.
  - apply Hnone. reflexivity.
  - apply (Hdef "null"); reflexivity.
  - apply (Hrefused "sd" quotaExceeded); reflexivity.
Defined.

(** The initial load with default [null] and nothing stored: the default is
    an empty value, and yet [setItem] is called and a record is left. *)
Lemma C1_counterexample :
  isEmptyValue VNull = true /\
  activate (tagged SharedLocal VNull VNull) emptyWorld
  = (Ok tt,
     mkWorld {["k" := "null"]} ∅ [SetItem localStorage "k" "null"] []
       VNull false roomy) /\
  recordOf localStorage "k"
    (snd (activate (tagged SharedLocal VNull VNull) emptyWorld))
  = Some "null".
Proof. repeat split. Qed.


Lemma C3_witness :
  Utils.calculateNewValue (Literal (VNum 7)) (VStr "old") = Ok (VNum 7) /\
  isEmptyValue (VNum 7) = false /\
  tagSerialize (VNum 7) = Throw typeError /\
  exists w',
    updateValue (tagged InlineLocal VUndefined (VStr "old"))
      (Literal (VNum 7)) (settledWorld "k" "sold" (VStr "old"))
    = (Ok tt, w') /\
    localRecords w' = {["k" := "sold"]} /\
    sessionRecords w' = ∅ /\
    backendCalls w' = [] /\
    currentValue w' = VStr "old" /\
    loading w' = false /\
    console w' = [AbortingStateUpdate "k" typeError].
Proof.
  repeat (split; [reflexivity |]).
  apply (C3_failed_serialization_aborts_update InlineLocal "k" VUndefined
           tagSerialize tagDeserialize (VStr "old") (Literal (VNum 7))
           (VNum 7) typeError
           (settledWorld "k" "sold" (VStr "old")));
    reflexivity.
Defined.

Lemma C4_witness :
  fst (updateValue (tagged SharedLocal VUndefined VNull)
         (Updater (fun prev => Ok (VStr "x"))) emptyWorld) = Ok tt /\
  updateValue (tagged SharedLocal VUndefined VNull)
    (Updater (fun prev => Throw typeError)) emptyWorld
  = (Throw typeError, emptyWorld) /\
  (exists w' rest,
     activate (tagged SharedLocal (VStr "d") VNull) (seededWorld "k" "junk")
     = (Ok tt, w') /\
     console w' = ErrorParsingSessionStorageKey "k" syntaxError :: rest /\
     (currentValue w' = VStr "d" \/ currentValue w' = VNull)) /\
  (exists w',
     activate (tagged SharedLocal (VNum 1) VNull) emptyWorld = (Ok tt, w') /\
     console w' = [DefaultValueCannotBeSerialized] /\
     currentValue w' = VNull) /\
  updateValue (tagged SharedLocal VUndefined VNull) (Literal (VNum 7))
    emptyWorld
  = (Ok tt, afterWarn (AbortingStateUpdate "k" typeError) emptyWorld) /\
  dispatch (tagged SharedLocal VUndefined VNull)
    (StorageChange (mkStorageEvent (Some "k") (Some "junk"))) emptyWorld
  = (Ok tt,
     afterWarn (AbortingAutomaticStateUpdate "k" syntaxError) emptyWorld) /\
  updateValue (tagged SharedLocal VUndefined VNull) (Literal (VStr "x"))
    fullWorld
  = (Ok tt, afterWarn (AbortingStateUpdate "k" quotaExceeded) fullWorld) /\
  (exists w',
     activate (tagged SharedLocal (VStr "d") VNull) fullWorld = (Ok tt, w') /\
     console w' = [DefaultValueCannotBeSerialized] /\
     currentValue w' = VNull).
Proof.
  pose proof (C4_only_updater_exceptions_escape SharedLocal "k" VUndefined
                tagSerialize tagDeserialize VNull emptyWorld)
    as (_ & _ & _ & Hret & Hthrow & _ & _ & Habort & Hdrop & _).
  pose proof (C4_only_updater_exceptions_escape SharedLocal "k" (VStr "d")
                tagSerialize tagDeserialize VNull (seededWorld "k" "junk"))
    as (_ & _ & _ & _ & _ & Hcorrupt & _).
  pose proof (C4_only_updater_exceptions_escape SharedLocal "k" (VNum 1)
                tagSerialize tagDeserialize VNull emptyWorld)
    as (_ & _ & _ & _ & _ & _ & Hrejected & _).
  pose proof (C4_only_updater_exceptions_escape SharedLocal "k" VUndefined
                tagSerialize tagDeserialize VNull fullWorld)
    as (_ & _ & _ & _ & _ & _ & _ & _ & _ & Hrefused & _).
  pose proof (C4_only_updater_exceptions_escape SharedLocal "k" (VStr "d")
                tagSerialize tagDeserialize VNull fullWorld)
    as (_ & _ & _ & _ & _ & _ & _ & _ & _ & _ & Hfull).
  repeat apply conj.
  - apply (Hret (Updater (fun prev => Ok (VStr "x"))) (VStr "x")).
    reflexivity.
  - apply (Hthrow (fun prev => Throw typeError) typeError). reflexivity.
  - apply (Hcorrupt "junk" syntaxError); reflexivity.
  - apply (Hrejected typeError); reflexivity.
  - apply (Habort (Literal (VNum 7)) (VNum 7) typeError); reflexivity.
  - apply (Hdrop (mkStorageEvent (Some "k") (Some "junk")) "junk"
             syntaxError); reflexivity.
  - apply (Hrefused (Literal (VStr "x")) (VStr "x") "sx" quotaExceeded);
      reflexivity.
  - apply (Hfull "sd" quotaExceeded); reflexivity.
Defined.

(** An updater function that throws: the exception leaves [update]. *)
Lemma C4_counterexample :
  fst (updateValue (tagged SharedLocal VUndefined VNull)
         (Updater (fun prev => Throw typeError)) emptyWorld)
  = Throw typeError /\
  fst (updateValue (tagged InlineSession VUndefined VNull)
         (Updater (fun prev => Throw typeError)) emptyWorld)
  = Throw typeError.
Proof. split; reflexivity. Qed.

Lemma C5_witness :
  (exists w',
     activate (tagged SharedLocal (VStr "d") VNull) (seededWorld "k" "junk")
     = (Ok tt, w') /\
     currentValue w' = VStr "d" /\
     recordOf localStorage "k" w' = Some "sd" /\
     backendCalls w'
     = [RemoveItem localStorage "k"; SetItem localStorage "k" "sd"] /\
     console w' = [ErrorParsingSessionStorageKey "k" syntaxError]) /\
  (exists w' calls rest,
     activate (tagged InlineLocal VUndefined VNull) (seededWorld "k" "junk")
     = (Ok tt, w') /\
     backendCalls w' = RemoveItem localStorage "k" :: calls /\
     console w' = ErrorParsingLocalStorageKey "k" syntaxError :: rest) /\
  ((exists calls,
      backendCalls
        (afterSetLoading false
           (afterSetValue (VStr "d")
              (afterSetItem localStorage "k" "sd" emptyWorld)))
      = (backendCalls emptyWorld ++ calls
         ++ [SetItem localStorage "k" "sd"])%list)
   <-> ~ usableRecord tagDeserialize (recordOf localStorage "k" emptyWorld))
  /\
  (exists w',
     activate (tagged SharedSession VUndefined VNull) (seededWorld "k" "")
     = (Ok tt, w') /\
     recordOf sessionStorage "k" w' = Some "" /\
     backendCalls w' = [] /\
     console w' = [] /\
     currentValue w' = VNull) /\
  (exists w',
     activate (tagged SharedLocal (VStr "d") VNull)
       (settledFullWorld "k" "junk" VNull)
     = (Ok tt, w') /\
     currentValue w' = VNull /\
     recordOf localStorage "k" w' = None /\
     backendCalls w' = [RemoveItem localStorage "k"] /\
     console w'
     = [ErrorParsingSessionStorageKey "k" syntaxError;
        DefaultValueCannotBeSerialized]).
Proof.
  pose proof (C5_corrupt_record_recovery SharedLocal "k" (VStr "d")
                tagSerialize tagDeserialize VNull (seededWorld "k" "junk"))
    as (Hrecover & _).
  pose proof (C5_corrupt_record_recovery InlineLocal "k" VUndefined
                tagSerialize tagDeserialize VNull (seededWorld "k" "junk"))
    as (_ & Hremoved & _).
  pose proof (C5_corrupt_record_recovery SharedLocal "k" (VStr "d")
                tagSerialize tagDeserialize VNull emptyWorld)
    as (_ & _ & Hiff & _).
  pose proof (C5_corrupt_record_recovery SharedSession "k" VUndefined
                tagSerialize tagDeserialize VNull (seededWorld "k" ""))
    as (_ & _ & _ & Hempty & _).
  pose proof (C5_corrupt_record_recovery SharedLocal "k" (VStr "d")
                tagSerialize tagDeserialize VNull
                (settledFullWorld "k" "junk" VNull))
    as (_ & _ & _ & _ & Hrefused).
  assert (Hroom : alwaysAccepts emptyWorld localStorage "k" "sd")
    by (intros held; reflexivity).
  repeat apply conj.
  - apply (Hrecover "junk" syntaxError "sd"); reflexivity.
  - apply (Hremoved "junk" syntaxError); reflexivity.
  - apply (Hiff "sd"); [reflexivity | reflexivity | exact Hroom | reflexivity].
  - apply (Hiff "sd"); [reflexivity | reflexivity | exact Hroom | reflexivity].
  - apply Hempty; reflexivity.
  - apply (Hrefused "junk" syntaxError "sd" quotaExceeded); reflexivity.
Defined.

(** A record that is the empty string, which the deserializer rejects: it is
    neither removed nor reported. *)
Lemma C5_counterexample :
  recordOf sessionStorage "k" (seededWorld "k" "") = Some "" /\
  tagDeserialize "" = Throw syntaxError /\
  activate (tagged SharedSession VUndefined VNull) (seededWorld "k" "")
  = (Ok tt, mkWorld {["k" := ""]} {["k" := ""]} [] [] VNull false roomy) /\
  recordOf sessionStorage "k"
    (snd (activate (tagged SharedSession VUndefined VNull)
            (seededWorld "k" "")))
  = Some "".
Proof. repeat split. Qed.

Lemma C6_witness :
  (exists w',
     activate (tagged SharedLocal (VStr "d") VNull)
       (seededWorld "k" "shello")
     = (Ok tt, w') /\
     currentValue w' = VStr "hello" /\
     loading w' = false /\
     localRecords w' = {["k" := "shello"]} /\
     sessionRecords w' = {["k" := "shello"]} /\
     backendCalls w' = [] /\
     console w' = []) /\
  (exists w',
     activate (tagged SharedLocal (VStr "d") VNull) (seededWorld "k" "")
     = (Ok tt, w') /\
     currentValue w' = VStr "d" /\
     recordOf localStorage "k" w' = Some "sd").
Proof.
  pose proof (C6_usable_record_is_adopted SharedLocal "k" (VStr "d")
                tagSerialize tagDeserialize VNull (seededWorld "k" "shello"))
    as (Hadopt & _).
  pose proof (C6_usable_record_is_adopted SharedLocal "k" (VStr "d")
                tagSerialize tagDeserialize VNull (seededWorld "k" ""))
    as (_ & Hempty).
  split.
  - apply (Hadopt "shello" (VStr "hello")); reflexivity.
  - apply (Hempty "sd"); reflexivity.
Defined.

(** A record that is the empty string, which the deserializer accepts: the
    default is adopted and written over it. *)
Lemma C6_counterexample :
  recordOf localStorage "k" (seededWorld "k" "") = Some "" /\
  nameDeserialize "" = Ok (VObj [("name", VStr "")]) /\
  activate (named SharedLocal VNull) (seededWorld "k" "")
  = (Ok tt,
     mkWorld {["k" := "John"]} {["k" := ""]}
       [SetItem localStorage "k" "John"] [] john false roomy).
Proof. repeat split. Qed.

Lemma C7_witness :
  (exists w',
     dispatch (tagged SharedLocal VUndefined (VStr "old"))
       (StorageChange (mkStorageEvent (Some "k") (Some "sx")))
       (settledWorld "k" "sold" (VStr "old"))
     = (Ok tt, w') /\
     currentValue w' = VStr "x" /\
     localRecords w' = {["k" := "sold"]} /\
     sessionRecords w' = ∅ /\
     backendCalls w' = [] /\
     console w' = [] /\
     loading w' = false) /\
  (exists w',
     dispatch (tagged SharedLocal VUndefined (VStr "old"))
       (StorageChange (mkStorageEvent (Some "k") None))
       (settledWorld "k" "sold" (VStr "old"))
     = (Ok tt, w') /\
     currentValue w' = VNull /\
     localRecords w' = {["k" := "sold"]} /\
     sessionRecords w' = ∅ /\
     backendCalls w' = [] /\
     console w' = [] /\
     loading w' = false) /\
  (exists w',
     dispatch (tagged SharedLocal VUndefined (VStr "old"))
       (StorageChange (mkStorageEvent (Some "k") (Some "junk")))
       (settledWorld "k" "sold" (VStr "old"))
     = (Ok tt, w') /\
     currentValue w' = VStr "old" /\
     localRecords w' = {["k" := "sold"]} /\
     sessionRecords w' = ∅ /\
     backendCalls w' = [] /\
     console w' = [AbortingAutomaticStateUpdate "k" syntaxError] /\
     loading w' = false) /\
  dispatch (tagged SharedLocal VUndefined (VStr "old"))
    (StorageChange (mkStorageEvent (Some "other") (Some "sx")))
    (settledWorld "k" "sold" (VStr "old"))
  = (Ok tt, settledWorld "k" "sold" (VStr "old")).
Proof.
  pose proof (C7_storage_event_bypasses_writer SharedLocal "k" VUndefined
                tagSerialize tagDeserialize (VStr "old")
                (mkStorageEvent (Some "k") (Some "sx"))
                (settledWorld "k" "sold" (VStr "old")) eq_refl)
    as (Hadopt & _).
  pose proof (C7_storage_event_bypasses_writer SharedLocal "k" VUndefined
                tagSerialize tagDeserialize (VStr "old")
                (mkStorageEvent (Some "k") None)
                (settledWorld "k" "sold" (VStr "old")) eq_refl)
    as (_ & Hclear & _).
  pose proof (C7_storage_event_bypasses_writer SharedLocal "k" VUndefined
                tagSerialize tagDeserialize (VStr "old")
                (mkStorageEvent (Some "k") (Some "junk"))
                (settledWorld "k" "sold" (VStr "old")) eq_refl)
    as (_ & _ & Hdrop & _).
  pose proof (C7_storage_event_bypasses_writer SharedLocal "k" VUndefined
                tagSerialize tagDeserialize (VStr "old")
                (mkStorageEvent (Some "other") (Some "sx"))
                (settledWorld "k" "sold" (VStr "old")) eq_refl)
    as (_ & _ & _ & Hother).
  repeat apply conj.
  - apply (Hadopt "sx" (VStr "x")); reflexivity.
  - apply Hclear; [reflexivity | left; reflexivity].
  - apply (Hdrop "junk" syntaxError); reflexivity.
  - apply Hother. reflexivity.
Defined.

(** A matching event whose new value is the empty string: the deserializer
    would return an object, or would throw, and either way the current value
    becomes [null] and nothing is printed. *)
Lemma C7_counterexample :
  nameDeserialize "" = Ok (VObj [("name", VStr "")]) /\
  dispatch (named SharedLocal john)
    (StorageChange (mkStorageEvent (Some "k") (Some "")))
    (settledWorld "k" "John" john)
  = (Ok tt, settledWorld "k" "John" VNull) /\
  tagDeserialize "" = Throw syntaxError /\
  dispatch (tagged SharedLocal VUndefined (VStr "x"))
    (StorageChange (mkStorageEvent (Some "k") (Some "")))
    (settledWorld "k" "sx" (VStr "x"))
  = (Ok tt, settledWorld "k" "sx" VNull).
Proof. repeat split. Qed.

Lemma C8_witness :
  leftInverse tagDeserialize tagSerialize /\
  (exists w' r,
     updateValue (tagged SharedLocal VUndefined VNull) (Literal (VStr "x"))
       emptyWorld = (Ok tt, w') /\
     recordOf localStorage "k" w' = Some r /\
     tagDeserialize r = Ok (VStr "x") /\
     currentValue w' = VStr "x") /\
  (exists w' r,
     updateValue (tagged SharedLocal VUndefined VNull)
       (Updater (fun prev => Ok (VBool true))) emptyWorld = (Ok tt, w') /\
     recordOf localStorage "k" w' = Some r /\
     tagDeserialize r = Ok (VBool true) /\
     currentValue w' = VBool true).
Proof.
  split; [exact tag_pair_inverse |].
  pose proof (C8_round_trip_of_stored_values SharedLocal "k" VUndefined
                tagSerialize tagDeserialize VNull emptyWorld tag_pair_inverse)
    as (Hlit & Hgen).
  split.
  - apply (Hlit (VStr "x") "sx"); reflexivity.
  - apply (Hgen (Updater (fun prev => Ok (VBool true))) (VBool true) "true");
      reflexivity.
Defined.

(** [update(false)] with a pair that round-trips booleans: the key is
    removed, so no record deserializes to [false]. *)
Lemma C8_counterexample :
  leftInverse tagDeserialize tagSerialize /\
  tagSerialize (VBool false) = Ok "false" /\
  tagDeserialize "false" = Ok (VBool false) /\
  updateValue (tagged SharedLocal VUndefined (VBool true))
    (Literal (VBool false)) (settledWorld "k" "true" (VBool true))
  = (Ok tt,
     mkWorld ∅ ∅ [RemoveItem localStorage "k"] [] VNull false roomy) /\
  recordOf localStorage "k"
    (snd (updateValue (tagged SharedLocal VUndefined (VBool true))
            (Literal (VBool false))
            (settledWorld "k" "true" (VBool true))))
  = None.
Proof.
  split; [exact tag_pair_inverse |].
  repeat split.
Qed.




(** ** Further properties of the hooks *)

Section Shapes.

Variable variant : Variant.
Variable key : string.
Variable defaultValue : Val.
Variable serialize : Val -> Outcome string.
Variable deserialize : string -> Outcome Val.

Local Abbreviation component :=
  (hookOf variant key defaultValue serialize deserialize).
Local Abbreviation backend := (backendOf variant).

Lemma evolves_trans (storage : StorageRef) (k : string) (w1 w2 w3 : World) :
  evolves storage k w1 w2 -> evolves storage k w2 w3 ->
  evolves storage k w1 w3.
Proof.
  intros H12 H23. induction H23; eauto using evolves.
Qed.

Lemma activate_evolves (stored : Val) (w : World) :
  evolves backend key w (snd (activate (component stored) w)).
Proof.
  assert (Hstart : forall w0,
            (truthyItem (recordOf backend key w) = None /\ w0 = w \/
             exists raw error,
               truthyItem (recordOf backend key w) = Some raw /\
               deserialize raw = Throw error /\
               w0 = afterRemoveItem backend key
                      (afterWarn (parseWarning variant key error) w)) ->
            evolves backend key w w0).
  { intros w0 [[_ ->] | (raw & error & _ & _ & ->)].
    - apply evolves_refl.
    - apply evolves_removeItem, evolves_warn, evolves_refl. }
  destruct (activate_shape variant key defaultValue serialize deserialize
              stored w)
    as [(raw & v & _ & _ & ->)
       | (w0 & Hw0 & _ & [(s & _ & _ & _ & ->)
                         | [(_ & _ & ->) | (_ & ->)]])];
    cbn [snd]; try specialize (Hstart w0 Hw0).
  - apply evolves_setLoading, evolves_setValue, evolves_refl.
  - apply evolves_setLoading, evolves_setValue, evolves_setItem, Hstart.
  - apply evolves_setLoading, evolves_setValue, evolves_warn, Hstart.
  - apply evolves_setLoading, evolves_setValue, Hstart.
Qed.

Lemma update_evolves (stored : Val) (w : World) (request : Request) :
  evolves backend key w (snd (updateValue (component stored) request w)).
Proof.
  destruct (update_cases variant key defaultValue serialize deserialize
              stored w request)
    as [(e & _ & ->) | [(c & _ & _ & ->)
       | [(c & s & _ & _ & _ & _ & ->) | (c & e & _ & _ & _ & ->)]]];
    cbn [snd].
  - apply evolves_refl.
  - apply evolves_setValue, evolves_removeItem, evolves_refl.
  - apply evolves_setValue, evolves_setItem, evolves_refl.
  - apply evolves_warn, evolves_refl.
Qed.

Lemma dispatch_evolves (stored : Val) (w : World) (e : Event) :
  evolves backend key w (snd (dispatch (component stored) e w)).
Proof.
  destruct e as [request | event | fresh].
  - apply update_evolves.
  - destruct (storage_event_shape variant key defaultValue serialize
                deserialize stored w event)
      as [-> | [(v & _ & _ & ->) | (raw & error & _ & _ & _ & _ & ->)]];
      cbn [snd].
    + apply evolves_refl.
    + apply evolves_setValue, evolves_refl.
    + apply evolves_warn, evolves_refl.
  - cbn [dispatch].
    destruct (fresh && effectDependsOnArguments (component stored)).
    + apply activate_evolves.
    + apply evolves_refl.
Qed.

Lemma handleAll_evolves (events : list Event) (rendered : Val) (w : World) :
  evolves backend key w (snd (handleAll component events rendered w)).
Proof.
  revert rendered w. induction events as [| e rest IH]; intros rendered w;
    cbn.
  - apply evolves_refl.
  - pose proof (dispatch_evolves (renderedAfter e rendered w) w e) as He.
    destruct (dispatch (component (renderedAfter e rendered w)) e w)
      as [o w1].
    cbn [snd] in He.
    pose proof (IH (renderedAfter e rendered w) w1) as Hrest.
    destruct (handleAll component rest (renderedAfter e rendered w) w1)
      as [os w2].
    cbn [snd] in *.
    eapply evolves_trans; eassumption.
Qed.

Lemma run_evolves (events : list Event) (w : World) :
  evolves backend key w (snd (run component events w)).
Proof.
  unfold run.
  pose proof (activate_evolves (currentValue w) w) as Ha.
  destruct (activate (component (currentValue w)) w) as [o w1].
  cbn [snd] in Ha.
  pose proof (handleAll_evolves events (currentValue w) w1) as Hrest.
  destruct (handleAll component events (currentValue w) w1) as [os w2].
  cbn [snd] in *.
  eapply evolves_trans; eassumption.
Qed.

End Shapes.

Lemma recordOf_afterSetItem_other (storage storage' : StorageRef)
    (k k' s : string) (w : World) :
  storage' <> storage \/ k' <> k ->
  recordOf storage' k' (afterSetItem storage k s w) = recordOf storage' k' w.
Proof.
  intros Hother. unfold recordOf, afterSetItem.
  destruct storage, storage'; cbn; try reflexivity;
    destruct Hother as [H | H]; try congruence;
    apply lookup_insert_ne; congruence.
Qed.

Lemma recordOf_afterRemoveItem_other (storage storage' : StorageRef)
    (k k' : string) (w : World) :
  storage' <> storage \/ k' <> k ->
  recordOf storage' k' (afterRemoveItem storage k w) = recordOf storage' k' w.
Proof.
  intros Hother. unfold recordOf, afterRemoveItem.
  destruct storage, storage'; cbn; try reflexivity;
    destruct Hother as [H | H]; try congruence;
    apply lookup_delete_ne; congruence.
Qed.

Lemma evolves_other_record (storage storage' : StorageRef) (k k' : string)
    (w w' : World) :
  storage' <> storage \/ k' <> k ->
  evolves storage k w w' ->
  recordOf storage' k' w' = recordOf storage' k' w.
Proof.
  intros Hother Hev. induction Hev.
  - reflexivity.
  - rewrite recordOf_afterSetItem_other by exact Hother. exact IHHev.
  - rewrite recordOf_afterRemoveItem_other by exact Hother. exact IHHev.
  - rewrite recordOf_afterWarn. exact IHHev.
  - rewrite recordOf_afterSetValue. exact IHHev.
  - rewrite recordOf_afterSetLoading. exact IHHev.
Qed.

Lemma evolves_journal (storage : StorageRef) (k : string) (w w' : World) :
  evolves storage k w w' ->
  exists calls warnings,
    backendCalls w' = (backendCalls w ++ calls)%list /\
    Forall (onKey storage k) calls /\
    console w' = (console w ++ warnings)%list.
Proof.
  intros Hev.
  induction Hev as [w | w w' s _ IH | w w' _ IH | w w' d _ IH
                   | w w' v _ IH | w w' b _ IH];
    try destruct IH as (calls & warnings & Hcalls & Hon & Hcons).
  - exists [], []. rewrite !app_nil_r. auto.
  - exists (calls ++ [SetItem storage k s])%list, warnings.
    repeat split.
    + destruct storage; cbn; rewrite Hcalls, <- app_assoc; reflexivity.
    + apply Forall_app. split; [exact Hon |].
      constructor; [cbn; auto | constructor].
    + destruct storage; exact Hcons.
  - exists (calls ++ [RemoveItem storage k])%list, warnings.
    repeat split.
    + destruct storage; cbn; rewrite Hcalls, <- app_assoc; reflexivity.
    + apply Forall_app. split; [exact Hon |].
      constructor; [cbn; auto | constructor].
    + destruct storage; exact Hcons.
  - exists calls, (warnings ++ [d])%list.
    repeat split; [exact Hcalls | exact Hon |].
    cbn. rewrite Hcons, <- app_assoc. reflexivity.
  - exists calls, warnings. auto.
  - exists calls, warnings. auto.
Qed.

Lemma evolves_refusal (storage : StorageRef) (k : string) (w w' : World) :
  evolves storage k w w' -> refusal w' = refusal w.
Proof.
  intros Hev. induction Hev; [reflexivity | ..];
    try destruct storage; cbn; assumption.
Qed.

Section Further.

Variable variant : Variant.
Variable key : string.
Variable defaultValue : Val.
Variable serialize : Val -> Outcome string.
Variable deserialize : string -> Outcome Val.

(** The state value read by the render whose operations are called. *)
Variable storedValue : Val.

Local Abbreviation component :=
  (hookOf variant key defaultValue serialize deserialize).
Local Abbreviation hook := (component storedValue).
Local Abbreviation backend := (backendOf variant).

(** X1. A hook reads and writes one key of one backend.  Whatever the
    sequence of updates, storage events and re-renders, and whatever the
    serializer pair, the updater functions and the backend do, every record
    of the other backend and every record under another key is, after
    activation and all the events, what it was before; the same holds for a
    single operation. *)
Theorem X1_other_keys_and_backends_untouched (storage' : StorageRef)
    (k' : string) (events : list Event) (e : Event) (w : World) :
  storage' <> backend \/ k' <> key ->
  recordOf storage' k' (snd (run component events w))
  = recordOf storage' k' w /\
  recordOf storage' k' (snd (activate hook w)) = recordOf storage' k' w /\
  recordOf storage' k' (snd (dispatch hook e w)) = recordOf storage' k' w.
Proof.
  intros Hother. repeat split.
  - eapply evolves_other_record; [exact Hother | apply run_evolves].
  - eapply evolves_other_record; [exact Hother | apply activate_evolves].
  - eapply evolves_other_record; [exact Hother | apply dispatch_evolves].
Qed.

(** X2. The journal of backend calls and the console only grow: after
    activation and any sequence of events the calls made before are still
    there, in order, followed by calls that are all [setItem] or
    [removeItem] on the hook's own backend and key, and the diagnostics
    printed before are followed by the new ones. *)
Theorem X2_calls_only_on_own_key (events : list Event) (w : World) :
  exists calls warnings,
    backendCalls (snd (run component events w))
    = (backendCalls w ++ calls)%list /\
    Forall (onKey backend key) calls /\
    console (snd (run component events w)) = (console w ++ warnings)%list.
Proof.
  apply evolves_journal, run_evolves.
Qed.

(** X3. How many backend calls one operation makes: an activation makes at
    most two (a [removeItem] of a corrupt record, a [setItem] of the
    default), an update makes at most one, a storage event makes none. *)
Theorem X3_backend_call_budget (request : Request) (event : StorageEvent)
    (w : World) :
  (exists calls,
     backendCalls (snd (activate hook w)) = (backendCalls w ++ calls)%list /\
     length calls <= 2) /\
  (exists calls,
     backendCalls (snd (updateValue hook request w))
     = (backendCalls w ++ calls)%list /\
     length calls <= 1) /\
  backendCalls (snd (dispatch hook (StorageChange event) w)) = backendCalls w.
Proof.
  repeat apply conj.
  - destruct (activate_shape variant key defaultValue serialize deserialize
                storedValue w)
      as [(raw & v & _ & _ & ->)
         | (w0 & Hw0 & _ & Hrest)].
    + exists []. rewrite app_nil_r. split; [reflexivity | cbn; lia].
    + assert (H0 : exists calls0,
                backendCalls w0 = (backendCalls w ++ calls0)%list /\
                length calls0 <= 1).
      { destruct Hw0 as [[_ ->] | (raw & error & _ & _ & ->)].
        - exists []. rewrite app_nil_r. split; [reflexivity | cbn; lia].
        - exists [RemoveItem backend key].
          split; [destruct variant; reflexivity | cbn; lia]. }
      destruct H0 as (calls0 & Hcalls0 & Hlen0).
      destruct Hrest
        as [(s & _ & _ & _ & ->) | [(_ & _ & ->) | (_ & ->)]];
        cbn [snd].
      * exists (calls0 ++ [SetItem backend key s])%list. split.
        -- destruct variant; cbn; rewrite Hcalls0, <- app_assoc; reflexivity.
        -- rewrite length_app. cbn. lia.
      * exists calls0. split; [exact Hcalls0 | lia].
      * exists calls0. split; [exact Hcalls0 | lia].
  - destruct (update_cases variant key defaultValue serialize deserialize
                storedValue w request)
      as [(e & _ & ->) | [(c & _ & _ & ->)
         | [(c & s & _ & _ & _ & _ & ->) | (c & e & _ & _ & _ & ->)]]];
      cbn [snd].
    + exists []. rewrite app_nil_r. split; [reflexivity | cbn; lia].
    + exists [RemoveItem backend key].
      split; [destruct variant; reflexivity | cbn; lia].
    + exists [SetItem backend key s].
      split; [destruct variant; reflexivity | cbn; lia].
    + exists []. rewrite app_nil_r. split; [reflexivity | cbn; lia].
  - destruct (storage_event_shape variant key defaultValue serialize
                deserialize storedValue w event)
      as [-> | [(v & _ & _ & ->) | (raw & error & _ & _ & _ & _ & ->)]];
      reflexivity.
Qed.

Lemma update_keeps_loading (stored : Val) (request : Request) (w : World) :
  loading (snd (updateValue (component stored) request w)) = loading w.
Proof.
  destruct (update_cases variant key defaultValue serialize deserialize
              stored w request)
    as [(e & _ & ->) | [(c & _ & _ & ->)
       | [(c & s & _ & _ & _ & _ & ->) | (c & e & _ & _ & _ & ->)]]];
    destruct variant; reflexivity.
Qed.

Lemma storage_event_keeps_loading (stored : Val) (event : StorageEvent)
    (w : World) :
  loading (snd (dispatch (component stored) (StorageChange event) w))
  = loading w.
Proof.
  destruct (storage_event_shape variant key defaultValue serialize
              deserialize stored w event)
    as [-> | [(v & _ & _ & ->) | (raw & error & _ & _ & _ & _ & ->)]];
    reflexivity.
Qed.

Lemma dispatch_keeps_loaded (stored : Val) (e : Event) (w : World) :
  loading w = false ->
  loading (snd (dispatch (component stored) e w)) = false.
Proof.
  intros Hload. destruct e as [request | event | fresh].
  - cbn [dispatch]. rewrite update_keeps_loading. exact Hload.
  - rewrite storage_event_keeps_loading. exact Hload.
  - cbn [dispatch].
    destruct (fresh && effectDependsOnArguments (component stored)).
    + destruct (activate_returns variant key defaultValue serialize
                  deserialize stored w) as (w' & -> & Hw').
      exact Hw'.
    + exact Hload.
Qed.

Lemma handleAll_keeps_loaded (events : list Event) (rendered : Val)
    (w : World) :
  loading w = false ->
  loading (snd (handleAll component events rendered w)) = false.
Proof.
  revert rendered w. induction events as [| e rest IH]; intros rendered w
    Hload; cbn.
  - exact Hload.
  - pose proof (dispatch_keeps_loaded (renderedAfter e rendered w) e w Hload)
      as He.
    destruct (dispatch (component (renderedAfter e rendered w)) e w)
      as [o w1].
    cbn [snd] in He.
    pose proof (IH (renderedAfter e rendered w) w1 He) as Hrest.
    destruct (handleAll component rest (renderedAfter e rendered w) w1)
      as [os w2].
    exact Hrest.
Qed.

(** X4. Once the hook is activated the loading flag is [false] and stays
    so: no update, no storage event, no re-render, no failure of the
    serializer pair, of the backend or of an updater function sets it back,
    whatever the sequence of events.  An update and a storage event leave
    the flag as it is. *)
Theorem X4_loading_stays_false (events : list Event) (e : Event)
    (request : Request) (event : StorageEvent) (w : World) :
  loading (snd (run component events w)) = false /\
  loading (snd (updateValue hook request w)) = loading w /\
  loading (snd (dispatch hook (StorageChange event) w)) = loading w /\
  (loading w = false -> loading (snd (dispatch hook e w)) = false).
Proof.
  repeat apply conj.
  - unfold run.
    destruct (activate_returns variant key defaultValue serialize
                deserialize (currentValue w) w)
      as (w1 & Hact & Hload).
    rewrite Hact.
    pose proof (handleAll_keeps_loaded events (currentValue w) w1 Hload)
      as Hrest.
    destruct (handleAll component events (currentValue w) w1) as [os w2].
    exact Hrest.
  - apply update_keeps_loading.
  - apply storage_event_keeps_loading.
  - apply dispatch_keeps_loaded.
Qed.

Ltac same_maps :=
  destruct variant; cbn;
  rewrite ?insert_insert_eq, ?delete_insert_eq, ?insert_delete_eq,
    ?delete_delete_eq;
  repeat split; reflexivity.

Ltac clash :=
  solve [ congruence
        | unfold accepts in *; destruct variant; cbn in *; congruence ].

(** Two calls of the update function that compute the same request from the
    state their renders read do what one call does. *)
Lemma update_twice (stored1 stored2 : Val) (request : Request) (w : World) :
  Utils.calculateNewValue request stored1
  = Utils.calculateNewValue request stored2 ->
  localRecords
    (snd (updateValue (component stored2) request
            (snd (updateValue (component stored1) request w))))
  = localRecords (snd (updateValue (component stored1) request w)) /\
  sessionRecords
    (snd (updateValue (component stored2) request
            (snd (updateValue (component stored1) request w))))
  = sessionRecords (snd (updateValue (component stored1) request w)) /\
  currentValue
    (snd (updateValue (component stored2) request
            (snd (updateValue (component stored1) request w))))
  = currentValue (snd (updateValue (component stored1) request w)).
Proof.
  intros Hsame.
  destruct (update_cases variant key defaultValue serialize deserialize
              stored1 w request)
    as [(e & Hc & Hu) | [(c & Hc & He & Hu)
       | [(c & s & Hc & He & Hs & Hacc & Hu)
         | (c & e & Hc & He & Hs & Hu)]]];
    rewrite Hu; cbn [snd]; rewrite Hsame in Hc.
  - rewrite (update_escapes variant key defaultValue serialize deserialize
               stored2 _ request e Hc).
    repeat split.
  - rewrite (update_empty variant key defaultValue serialize deserialize
               stored2 _ request c Hc He).
    same_maps.
  - destruct (update_cases variant key defaultValue serialize deserialize
                stored2 (afterSetValue c (afterSetItem backend key s w))
                request)
      as [(e' & Hc' & Hu') | [(c' & Hc' & He' & Hu')
         | [(c' & s' & Hc' & He' & Hs' & Hacc' & Hu')
           | (c' & e' & Hc' & He' & Hs' & Hu')]]];
      rewrite Hu'; cbn [snd]; try clash.
    + assert (c' = c) by congruence. subst c'.
      assert (s' = s) by congruence. subst s'.
      same_maps.
    + same_maps.
  - destruct (update_cases variant key defaultValue serialize deserialize
                stored2 (afterWarn (AbortingStateUpdate key e) w) request)
      as [(e' & Hc' & Hu') | [(c' & Hc' & He' & Hu')
         | [(c' & s' & Hc' & He' & Hs' & Hacc' & Hu')
           | (c' & e' & Hc' & He' & Hs' & Hu')]]];
      rewrite Hu'; cbn [snd]; try clash.
    + exfalso. assert (c' = c) by congruence. subst c'.
      destruct Hs as [Hs | (s0 & Hs & Href)]; [congruence |].
      assert (s0 = s') by congruence. subst s0.
      unfold accepts in Hacc'. destruct variant; cbn in *; congruence.
    + same_maps.
Qed.

(** X5. Calling [update] twice in a row with the same value that is not a
    function leaves both backends and the current value as one call leaves
    them, also when the value is falsy, when its serialization throws and
    when the backend refuses it, and whichever renders the two calls are
    made from. *)
Theorem X5_literal_update_idempotent (otherStored : Val) (v : Val)
    (w : World) :
  localRecords
    (snd (updateValue (component otherStored) (Literal v)
            (snd (updateValue hook (Literal v) w))))
  = localRecords (snd (updateValue hook (Literal v) w)) /\
  sessionRecords
    (snd (updateValue (component otherStored) (Literal v)
            (snd (updateValue hook (Literal v) w))))
  = sessionRecords (snd (updateValue hook (Literal v) w)) /\
  currentValue
    (snd (updateValue (component otherStored) (Literal v)
            (snd (updateValue hook (Literal v) w))))
  = currentValue (snd (updateValue hook (Literal v) w)).
Proof.
  apply update_twice. reflexivity.
Qed.

(** X6. The last write wins: when [v] is not a function, and is falsy or
    has a serialization that the backend takes whatever it holds, the
    backends and the current value after any update followed by [update(v)]
    are those after [update(v)] alone. *)
Theorem X6_last_literal_update_wins (otherStored : Val) (request : Request)
    (v : Val) (w : World) :
  truthy v = false \/
  (exists s, serialize v = Ok s /\ alwaysAccepts w backend key s) ->
  localRecords
    (snd (updateValue (component otherStored) (Literal v)
            (snd (updateValue hook request w))))
  = localRecords (snd (updateValue hook (Literal v) w)) /\
  sessionRecords
    (snd (updateValue (component otherStored) (Literal v)
            (snd (updateValue hook request w))))
  = sessionRecords (snd (updateValue hook (Literal v) w)) /\
  currentValue
    (snd (updateValue (component otherStored) (Literal v)
            (snd (updateValue hook request w))))
  = currentValue (snd (updateValue hook (Literal v) w)).
Proof.
  intros Hv.
  assert (Hlit : (forall stored w1,
                    updateValue (component stored) (Literal v) w1
                    = (Ok tt, afterSetValue VNull
                                (afterRemoveItem backend key w1))) \/
                 (exists c s,
                    forall stored w1,
                      refusal w1 = refusal w ->
                      updateValue (component stored) (Literal v) w1
                      = (Ok tt, afterSetValue c
                                  (afterSetItem backend key s w1)))).
  { destruct (truthy v) eqn:Htruthy.
    - destruct Hv as [Hv | (s & Hs & Hacc)]; [discriminate |].
      right. exists v, s. intros stored w1 Href.
      apply update_stored; [| | exact Hs |].
      + cbn. rewrite Htruthy. reflexivity.
      + pose proof (falsy_is_empty_after_coercion v) as H.
        rewrite Htruthy in H. exact H.
      + unfold accepts. rewrite Href. apply Hacc.
    - left. intros stored w1.
      apply update_empty with (c := VNull); [| reflexivity].
      cbn. rewrite Htruthy. reflexivity. }
  destruct (update_cases variant key defaultValue serialize deserialize
              storedValue w request)
    as [(e & _ & ->) | [(c1 & _ & _ & ->)
       | [(c1 & s1 & _ & _ & _ & _ & ->) | (c1 & e & _ & _ & _ & ->)]]];
    cbn [snd];
    (destruct Hlit as [Hup | (c & s & Hup)];
     [rewrite !Hup
     | rewrite !Hup by (destruct variant; reflexivity)]);
    cbn [snd]; same_maps.
Qed.

(** X7. Updater functions chain across renders: when an updater's result
    is stored and the component has rendered again, the next updater is
    called with that result, and after the two updates the current value is
    the second result and the record is its serialization, the backend
    taking both writes. *)
Theorem X7_updaters_chain (f g : Val -> Outcome Val) (c1 c2 : Val)
    (s1 s2 : string) (w : World) :
  f storedValue = Ok c1 ->
  isEmptyValue c1 = false ->
  serialize c1 = Ok s1 ->
  accepts w backend key s1 ->
  g c1 = Ok c2 ->
  isEmptyValue c2 = false ->
  serialize c2 = Ok s2 ->
  refusal w backend (<[key := s1]> (records backend w)) key s2 = None ->
  exists w1 w2,
    updateValue hook (Updater f) w = (Ok tt, w1) /\
    currentValue w1 = c1 /\
    updateValue (component (currentValue w1)) (Updater g) w1 = (Ok tt, w2) /\
    currentValue w2 = c2 /\
    recordOf backend key w2 = Some s2 /\
    snd (handleAll component
           [Update (Updater f); Rerender false; Update (Updater g)]
           storedValue w)
    = w2.
Proof.
  intros Hf He1 Hs1 Ha1 Hg He2 Hs2 Ha2.
  assert (H1 : updateValue hook (Updater f) w
               = (Ok tt, afterSetValue c1 (afterSetItem backend key s1 w)))
    by (apply update_stored with (s := s1); assumption).
  assert (H2 : updateValue (component c1) (Updater g)
                 (afterSetValue c1 (afterSetItem backend key s1 w))
               = (Ok tt,
                  afterSetValue c2
                    (afterSetItem backend key s2
                       (afterSetValue c1 (afterSetItem backend key s1 w))))).
  { apply update_stored with (s := s2); [exact Hg | exact He2 | exact Hs2 |].
    unfold accepts. destruct variant; exact Ha2. }
  eexists. eexists.
  split; [exact H1 |]. split; [reflexivity |].
  split; [exact H2 |]. split; [reflexivity |].
  split.
  - rewrite recordOf_afterSetValue. apply recordOf_afterSetItem.
  - cbn [handleAll renderedAfter dispatch].
    rewrite H1. cbn [andb]. cbn [ret currentValue afterSetValue].
    rewrite H2. reflexivity.
Qed.

(** X8. A stored value survives a reload: when an update stores a value,
    the backend taking the write, and its serialization is not the empty
    string and deserializes back to it, a hook activated afterwards on the
    same backends, with any default, adopts that value and makes no backend
    call. *)
Theorem X8_stored_value_survives_reload (request : Request) (c : Val)
    (s : string) (otherDefault otherStored : Val) (w : World) :
  Utils.calculateNewValue request storedValue = Ok c ->
  isEmptyValue c = false ->
  serialize c = Ok s ->
  accepts w backend key s ->
  s <> "" ->
  deserialize s = Ok c ->
  exists w',
    activate
      (hookOf variant key otherDefault serialize deserialize otherStored)
      (reload (snd (updateValue hook request w)))
    = (Ok tt, w') /\
    currentValue w' = c /\
    loading w' = false /\
    backendCalls w' = [] /\
    recordOf backend key w' = Some s.
Proof.
  intros Hcalc Hempty Hser Hacc Hne Hde.
  rewrite (update_stored variant key defaultValue serialize deserialize
             storedValue w request c s Hcalc Hempty Hser Hacc).
  cbn [snd].
  assert (Hrec : recordOf backend key
                   (reload (afterSetValue c (afterSetItem backend key s w)))
                 = Some s).
  { unfold recordOf, reload. destruct variant; cbn; apply lookup_insert_eq. }
  assert (Hitem : truthyItem
                    (recordOf backend key
                       (reload
                          (afterSetValue c (afterSetItem backend key s w))))
                  = Some s).
  { rewrite Hrec. cbn. destruct (String.eqb_spec s ""); congruence. }
  eexists. split.
  - apply activate_usable with (raw := s); [exact Hitem | exact Hde].
  - repeat split.
    rewrite recordOf_afterSetLoading, recordOf_afterSetValue. exact Hrec.
Qed.

(** X9. A value whose serialization is the empty string does not survive a
    reload: the update stores the empty record, when the backend takes it,
    and shows the value, but a hook activated afterwards without a default
    finds the record falsy, leaves it where it is and shows [null]. *)
Theorem X9_empty_serialization_lost_on_reload (request : Request) (c : Val)
    (otherStored : Val) (w : World) :
  Utils.calculateNewValue request storedValue = Ok c ->
  isEmptyValue c = false ->
  serialize c = Ok "" ->
  accepts w backend key "" ->
  exists w1 w2,
    updateValue hook request w = (Ok tt, w1) /\
    currentValue w1 = c /\
    recordOf backend key w1 = Some "" /\
    activate (hookOf variant key VUndefined serialize deserialize otherStored)
      (reload w1)
    = (Ok tt, w2) /\
    currentValue w2 = VNull /\
    recordOf backend key w2 = Some "" /\
    backendCalls w2 = [] /\
    console w2 = [].
Proof.
  intros Hcalc Hempty Hser Hacc.
  eexists. eexists. split; [| split; [| split; [| split]]].
  - apply update_stored with (s := ""); eassumption.
  - reflexivity.
  - rewrite recordOf_afterSetValue. apply recordOf_afterSetItem.
  - apply activate_no_default; [| reflexivity].
    assert (Hrec : recordOf backend key
                     (reload
                        (afterSetValue c (afterSetItem backend key "" w)))
                   = Some "").
    { unfold recordOf, reload. destruct variant; cbn; apply lookup_insert_eq. }
    rewrite Hrec. reflexivity.
  - repeat split.
    rewrite recordOf_afterSetLoading, recordOf_afterSetValue.
    unfold recordOf, reload. destruct variant; cbn; apply lookup_insert_eq.
Qed.

(** X10. Running the activation effect a second time changes nothing a
    consumer can see: when the default, if it has a serialization,
    deserializes back from it, and the backend takes a write that repeats
    the record it holds, both backends, the current value and the loading
    flag after two activations in a row are those after one. *)
Theorem X10_activation_idempotent (otherStored : Val) (w : World) :
  (forall s, serialize defaultValue = Ok s ->
             deserialize s = Ok defaultValue) ->
  (forall held s, held !! key = Some s ->
                  refusal w backend held key s = None) ->
  localRecords
    (snd (activate (component otherStored) (snd (activate hook w))))
  = localRecords (snd (activate hook w)) /\
  sessionRecords
    (snd (activate (component otherStored) (snd (activate hook w))))
  = sessionRecords (snd (activate hook w)) /\
  currentValue
    (snd (activate (component otherStored) (snd (activate hook w))))
  = currentValue (snd (activate hook w)) /\
  loading (snd (activate (component otherStored) (snd (activate hook w))))
  = loading (snd (activate hook w)).
Proof.
  intros Hround Hrewrite.
  destruct (activate_shape variant key defaultValue serialize deserialize
              storedValue w)
    as [(raw & v & Hitem & Hraw & ->)
       | (w0 & Hw0 & Hitem0 & Hrest)];
    cbn [snd].
  - erewrite activate_usable; [| | exact Hraw].
    + repeat split.
    + rewrite recordOf_afterSetLoading, recordOf_afterSetValue. exact Hitem.
  - assert (Href : refusal w0 = refusal w).
    { destruct Hw0 as [[_ ->] | (raw & error & _ & _ & ->)];
        [reflexivity | destruct variant; reflexivity]. }
    destruct Hrest
      as [(s & Hdef & Hser & Hacc & ->)
         | [(Hdef & (error & Hwhy) & ->) | (Hdef & ->)]];
      cbn [snd].
    + assert (Hrec : recordOf backend key
                       (afterSetLoading false
                          (afterSetValue defaultValue
                             (afterSetItem backend key s w0)))
                     = Some s).
      { rewrite recordOf_afterSetLoading, recordOf_afterSetValue.
        apply recordOf_afterSetItem. }
      destruct (String.eqb s "") eqn:Hs.
      * erewrite activate_default_stored; [| | exact Hdef | exact Hser |].
        -- same_maps.
        -- rewrite Hrec. cbn. rewrite Hs. reflexivity.
        -- unfold accepts, recordOf in *.
           replace (refusal
                      (afterSetLoading false
                         (afterSetValue defaultValue
                            (afterSetItem backend key s w0))))
             with (refusal w)
             by (rewrite <- Href; destruct variant; reflexivity).
           apply Hrewrite. exact Hrec.
      * erewrite activate_usable; [| | exact (Hround s Hser)].
        -- repeat split.
        -- rewrite Hrec. cbn. rewrite Hs. reflexivity.
    + assert (Hitem1 : truthyItem
                         (recordOf backend key
                            (afterSetLoading false
                               (afterSetValue VNull
                                  (afterWarn DefaultValueCannotBeSerialized
                                     w0))))
                       = None).
      { rewrite recordOf_afterSetLoading, recordOf_afterSetValue,
          recordOf_afterWarn.
        exact Hitem0. }
      destruct Hwhy as [Hser | (s & Hser & Hno)].
      * erewrite activate_default_rejected;
          [| exact Hitem1 | exact Hdef | exact Hser].
        repeat split.
      * erewrite activate_default_refused;
          [| exact Hitem1 | exact Hdef | exact Hser
           | destruct variant; exact Hno].
        repeat split.
    + erewrite activate_no_default; [| | exact Hdef].
      * repeat split.
      * rewrite recordOf_afterSetLoading, recordOf_afterSetValue.
        exact Hitem0.
Qed.

(** X11. Two contexts converge: when an update of a hook on the persistent
    backend removes the key, or stores -- the backend taking the write -- a
    serialization that is not the empty string and deserializes back to the
    value, a hook for the same key in another context that receives the
    storage event for that change ends with the same current value as the
    updating hook, whatever its own current value, default and serializer
    were. *)
Theorem X11_storage_event_mirrors_update (request : Request) (c : Val)
    (otherVariant : Variant) (otherDefault : Val)
    (otherSerialize : Val -> Outcome string) (otherStored : Val)
    (w other : World) :
  backend = localStorage ->
  backendOf otherVariant = localStorage ->
  Utils.calculateNewValue request storedValue = Ok c ->
  (isEmptyValue c = true \/
   exists s,
     serialize c = Ok s /\ accepts w backend key s /\
     s <> "" /\ deserialize s = Ok c) ->
  currentValue
    (snd (dispatch
            (hookOf otherVariant key otherDefault otherSerialize deserialize
               otherStored)
            (StorageChange
               (changeNotice key (snd (updateValue hook request w))))
            other))
  = currentValue (snd (updateValue hook request w)).
Proof.
  intros Hb Hob Hcalc Hc.
  assert (Hsame : sameKey (Some key) key = true)
    by (cbn; apply String.eqb_refl).
  destruct (isEmptyValue c) eqn:Hempty.
  - rewrite (update_empty variant key defaultValue serialize deserialize
               storedValue w request c Hcalc Hempty).
    cbn [snd].
    erewrite storage_event_cleared; [reflexivity | exact Hob | exact Hsame |].
    unfold changeNotice. cbn [eventNewValue].
    rewrite <- Hb, recordOf_afterSetValue, recordOf_afterRemoveItem.
    reflexivity.
  - destruct Hc as [Hc | (s & Hser & Hacc & Hne & Hde)]; [discriminate |].
    rewrite (update_stored variant key defaultValue serialize deserialize
               storedValue w request c s Hcalc Hempty Hser Hacc).
    cbn [snd].
    erewrite storage_event_adopted;
      [reflexivity | exact Hob | exact Hsame | | exact Hde].
    unfold changeNotice. cbn [eventNewValue].
    rewrite <- Hb, recordOf_afterSetValue, recordOf_afterSetItem.
    cbn. destruct (String.eqb_spec s ""); congruence.
Qed.

(** X12. The coercion of falsy values applies to literal requests only: a
    falsy value that is not [null], [undefined] or [""] -- [0], [false] or
    [NaN] -- returned by an updater function is serialized and, the backend
    taking the write, stored and shown, while the same value passed
    directly removes the key. *)
Theorem X12_updater_can_store_falsy_value (callback : Val -> Outcome Val)
    (c : Val) (s : string) (w : World) :
  callback storedValue = Ok c ->
  truthy c = false ->
  isEmptyValue c = false ->
  serialize c = Ok s ->
  accepts w backend key s ->
  (exists w1,
     updateValue hook (Updater callback) w = (Ok tt, w1) /\
     currentValue w1 = c /\
     recordOf backend key w1 = Some s) /\
  (exists w2,
     updateValue hook (Literal c) w = (Ok tt, w2) /\
     currentValue w2 = VNull /\
     recordOf backend key w2 = None).
Proof.
  intros Hcb Hfalsy Hempty Hser Hacc. split.
  - eexists. split.
    + apply update_stored with (s := s);
        [exact Hcb | exact Hempty | exact Hser | exact Hacc].
    + split; [reflexivity |].
      rewrite recordOf_afterSetValue. apply recordOf_afterSetItem.
  - eexists. split.
    + apply update_empty with (c := VNull); [| reflexivity].
      cbn. rewrite Hfalsy. reflexivity.
    + split; [reflexivity |].
      rewrite recordOf_afterSetValue. apply recordOf_afterRemoveItem.
Qed.

(** X13. Updates keep the record and the current value in step.  If the
    record under the key is the serialization of the current value (or there
    is none and the value is [null]) before an update, it is so after it,
    however the update ends; and an update that returns without printing a
    diagnostic establishes this, whatever held before. *)
Theorem X13_update_keeps_record_and_value_in_step (request : Request)
    (w : World) :
  (consistent serialize backend key w ->
   consistent serialize backend key (snd (updateValue hook request w))) /\
  (fst (updateValue hook request w) = Ok tt ->
   console (snd (updateValue hook request w)) = console w ->
   consistent serialize backend key (snd (updateValue hook request w))).
Proof.
  assert (Hcleared : consistent serialize backend key
                       (afterSetValue VNull (afterRemoveItem backend key w))).
  { unfold consistent.
    rewrite recordOf_afterSetValue, recordOf_afterRemoveItem. reflexivity. }
  destruct (update_cases variant key defaultValue serialize deserialize
              storedValue w request)
    as [(e & _ & ->) | [(c & _ & _ & ->)
       | [(c & s & _ & _ & Hs & _ & ->) | (c & e & _ & _ & _ & ->)]]];
    cbn [fst snd]; split.
  - auto.
  - discriminate.
  - intros _. exact Hcleared.
  - intros _ _. exact Hcleared.
  - intros _. unfold consistent.
    rewrite recordOf_afterSetValue, recordOf_afterSetItem. exact Hs.
  - intros _ _. unfold consistent.
    rewrite recordOf_afterSetValue, recordOf_afterSetItem. exact Hs.
  - unfold consistent. rewrite recordOf_afterWarn. auto.
  - intros _ Hcons. cbn in Hcons.
    apply (f_equal length) in Hcons. rewrite length_app in Hcons.
    cbn in Hcons. lia.
Qed.

Lemma activate_silent (stored : Val) (w : World) :
  (forall v, exists s, serialize v = Ok s) ->
  (forall raw, exists v, deserialize raw = Ok v) ->
  neverRefuses w ->
  console (snd (activate (component stored) w)) = console w.
Proof.
  intros Hser Hde Hroom.
  destruct (activate_shape variant key defaultValue serialize deserialize
              stored w)
    as [(raw & v & _ & _ & ->)
       | (w0 & Hw0 & _ & Hrest)].
  - reflexivity.
  - assert (H0 : w0 = w).
    { destruct Hw0 as [[_ ->] | (raw & error & _ & Hraw & _)];
        [reflexivity |].
      destruct (Hde raw) as [v Hv]. congruence. }
    subst w0.
    destruct Hrest
      as [(s & _ & _ & _ & ->)
         | [(_ & (error & [Hs | (s & _ & Hno)]) & _) | (_ & ->)]].
    + destruct variant; reflexivity.
    + destruct (Hser defaultValue) as [s Hs']. congruence.
    + rewrite Hroom in Hno. discriminate.
    + reflexivity.
Qed.

Lemma dispatch_silent (stored : Val) (e : Event) (w : World) :
  (forall v, exists s, serialize v = Ok s) ->
  (forall raw, exists v, deserialize raw = Ok v) ->
  neverRefuses w ->
  console (snd (dispatch (component stored) e w)) = console w.
Proof.
  intros Hser Hde Hroom. destruct e as [request | event | fresh].
  - cbn [dispatch].
    destruct (update_cases variant key defaultValue serialize deserialize
                stored w request)
      as [(e & _ & ->) | [(c & _ & _ & ->)
         | [(c & s & _ & _ & _ & _ & ->)
           | (c & e & _ & _ & [Hs | (s & _ & Hno)] & _)]]];
      try (destruct variant; reflexivity).
    + destruct (Hser c) as [s Hs']. congruence.
    + rewrite Hroom in Hno. discriminate.
  - destruct (storage_event_shape variant key defaultValue serialize
                deserialize stored w event)
      as [-> | [(v & _ & _ & ->) | (raw & error & _ & _ & _ & Hraw & _)]];
      try reflexivity.
    destruct (Hde raw) as [v Hv]. congruence.
  - cbn [dispatch].
    destruct (fresh && effectDependsOnArguments (component stored)).
    + apply activate_silent; assumption.
    + reflexivity.
Qed.

(** X14. No diagnostic without a failure of the serializer, of the
    deserializer or of the backend: with a pair that never throws and
    backends that take every write, the console after activation and any
    sequence of updates, storage events and re-renders is the console
    before, also when updater functions throw and when records or new
    values are empty. *)
Theorem X14_no_diagnostic_unless_pair_throws (events : list Event)
    (w : World) :
  (forall v, exists s, serialize v = Ok s) ->
  (forall raw, exists v, deserialize raw = Ok v) ->
  neverRefuses w ->
  console (snd (run component events w)) = console w.
Proof.
  intros Hser Hde Hroom.
  assert (Hevents : forall evs rendered w0,
            neverRefuses w0 ->
            console (snd (handleAll component evs rendered w0)) = console w0).
  { induction evs as [| e rest IH]; intros rendered w0 Hroom0; cbn;
      [reflexivity |].
    pose proof (dispatch_silent (renderedAfter e rendered w0) e w0 Hser Hde
                  Hroom0) as He.
    pose proof (dispatch_evolves variant key defaultValue serialize
                  deserialize (renderedAfter e rendered w0) w0 e) as Hev.
    destruct (dispatch (component (renderedAfter e rendered w0)) e w0)
      as [o w1].
    cbn [snd] in He, Hev.
    assert (Hroom1 : neverRefuses w1).
    { unfold neverRefuses. rewrite (evolves_refusal _ _ _ _ Hev).
      exact Hroom0. }
    pose proof (IH (renderedAfter e rendered w0) w1 Hroom1) as Hrest.
    destruct (handleAll component rest (renderedAfter e rendered w0) w1)
      as [os w2].
    cbn [snd] in *.
    congruence. }
  unfold run.
  pose proof (activate_silent (currentValue w) w Hser Hde Hroom) as Hact.
  pose proof (activate_evolves variant key defaultValue serialize deserialize
                (currentValue w) w) as Hev.
  destruct (activate (component (currentValue w)) w) as [o w1].
  cbn [snd] in Hact, Hev.
  assert (Hroom1 : neverRefuses w1).
  { unfold neverRefuses. rewrite (evolves_refusal _ _ _ _ Hev). exact Hroom. }
  pose proof (Hevents events (currentValue w) w1 Hroom1) as Hrest.
  destruct (handleAll component events (currentValue w) w1) as [os w2].
  cbn [snd] in *.
  congruence.
Qed.

(** X15. Updates made from one render do not see each other: the update
    function closes over the state its render read, so calling it twice in
    a row from the same render with the same request -- a value or an
    updater function -- leaves both backends and the current value as one
    call leaves them; a second [update(prev => f(prev))] applies [f] to the
    same previous value as the first, not to the first result. *)
Theorem X15_updates_from_one_render_do_not_chain (request : Request)
    (w : World) :
  localRecords
    (snd (updateValue hook request (snd (updateValue hook request w))))
  = localRecords (snd (updateValue hook request w)) /\
  sessionRecords
    (snd (updateValue hook request (snd (updateValue hook request w))))
  = sessionRecords (snd (updateValue hook request w)) /\
  currentValue
    (snd (updateValue hook request (snd (updateValue hook request w))))
  = currentValue (snd (updateValue hook request w)) /\
  snd (handleAll component [Update request; Update request] storedValue w)
  = snd (updateValue hook request (snd (updateValue hook request w))).
Proof.
  destruct (update_twice storedValue storedValue request w eq_refl)
    as (Hlocal & Hsession & Hvalue).
  repeat split; try assumption.
  cbn [handleAll renderedAfter dispatch].
  destruct (updateValue hook request w) as [o1 w1]. cbn [snd].
  destruct (updateValue hook request w1) as [o2 w2]. reflexivity.
Qed.

End Further.

(** ** Instances of the further properties *)

Lemma X1_witness :
  (recordOf sessionStorage "k"
     (snd (run (tagged SharedLocal (VStr "d"))
             [Update (Literal (VStr "x")); Rerender true;
              Update (Literal VNull)]
             (seededWorld "k" "junk")))
   = Some "junk") /\
  (recordOf localStorage "other"
     (snd (run (tagged SharedLocal (VStr "d"))
             [Update (Literal (VStr "x"))]
             (seededWorld "other" "sold")))
   = Some "sold").
Proof.
  split.
  - apply (X1_other_keys_and_backends_untouched SharedLocal "k" (VStr "d")
             tagSerialize tagDeserialize VNull sessionStorage "k"
             [Update (Literal (VStr "x")); Rerender true;
              Update (Literal VNull)]
             (Update (Literal VNull)) (seededWorld "k" "junk")).
    left. discriminate.
  - apply (X1_other_keys_and_backends_untouched SharedLocal "k" (VStr "d")
             tagSerialize tagDeserialize VNull localStorage "other"
             [Update (Literal (VStr "x"))]
             (Update (Literal VNull)) (seededWorld "other" "sold")).
    right. discriminate.
Defined.

Lemma X4_witness :
  loading (settledWorld "k" "sold" (VStr "old")) = false /\
  loading
    (snd (dispatch (tagged SharedLocal (VStr "d") (VStr "old"))
            (Rerender true) (settledWorld "k" "sold" (VStr "old"))))
  = false.
Proof.
  split; [reflexivity |].
  apply (X4_loading_stays_false SharedLocal "k" (VStr "d") tagSerialize
           tagDeserialize (VStr "old") [] (Rerender true) (Literal VNull)
           (mkStorageEvent None None)
           (settledWorld "k" "sold" (VStr "old"))).
  reflexivity.
Defined.

Lemma X6_witness :
  (truthy (VStr "b") = false \/
   exists s,
     tagSerialize (VStr "b") = Ok s /\
     alwaysAccepts emptyWorld localStorage "k" s) /\
  localRecords
    (snd (updateValue (tagged SharedLocal VUndefined (VStr "a"))
            (Literal (VStr "b"))
            (snd (updateValue (tagged SharedLocal VUndefined VNull)
                    (Literal (VStr "a")) emptyWorld)))) = {["k" := "sb"]} /\
  localRecords
    (snd (updateValue (tagged SharedLocal VUndefined (VStr "a"))
            (Literal (VNum 0))
            (snd (updateValue (tagged SharedLocal VUndefined VNull)
                    (Literal (VStr "a")) emptyWorld)))) = ∅.
Proof.
  assert (Hb : truthy (VStr "b") = false \/
               exists s,
                 tagSerialize (VStr "b") = Ok s /\
                 alwaysAccepts emptyWorld localStorage "k" s).
  { right. exists "sb". split; [reflexivity |]. intros held. reflexivity. }
  split; [exact Hb |]. split.
  - exact (eq_trans
             (proj1 (X6_last_literal_update_wins SharedLocal "k" VUndefined
                       tagSerialize tagDeserialize VNull (VStr "a")
                       (Literal (VStr "a")) (VStr "b") emptyWorld Hb))
             eq_refl).
  - exact (eq_trans
             (proj1 (X6_last_literal_update_wins SharedLocal "k" VUndefined
                       tagSerialize tagDeserialize VNull (VStr "a")
                       (Literal (VStr "a")) (VNum 0) emptyWorld
                       (or_introl eq_refl)))
             eq_refl).
Defined.

Lemma X7_witness :
  exists w1 w2,
    updateValue (tagged SharedSession VUndefined VNull)
      (Updater (fun prev => Ok (VStr "a"))) emptyWorld = (Ok tt, w1) /\
    currentValue w1 = VStr "a" /\
    updateValue (tagged SharedSession VUndefined (currentValue w1))
      (Updater (fun prev =>
                  match prev with
                  | VStr s => Ok (VStr (s +:+ "b"))
                  | _ => Ok (VStr "none")
                  end)) w1 = (Ok tt, w2) /\
    currentValue w2 = VStr "ab" /\
    recordOf sessionStorage "k" w2 = Some "sab" /\
    snd (handleAll (tagged SharedSession VUndefined)
           [Update (Updater (fun prev => Ok (VStr "a")));
            Rerender false;
            Update (Updater (fun prev =>
                               match prev with
                               | VStr s => Ok (VStr (s +:+ "b"))
                               | _ => Ok (VStr "none")
                               end))]
           VNull emptyWorld)
    = w2.
Proof.
  apply (X7_updaters_chain SharedSession "k" VUndefined tagSerialize
           tagDeserialize VNull (fun prev => Ok (VStr "a"))
           (fun prev =>
              match prev with
              | VStr s => Ok (VStr (s +:+ "b"))
              | _ => Ok (VStr "none")
              end)
           (VStr "a") (VStr "ab") "sa" "sab" emptyWorld);
    reflexivity.
Defined.

Lemma X8_witness :
  exists w',
    activate (tagged SharedLocal (VStr "d") VNull)
      (reload (snd (updateValue (tagged SharedLocal VUndefined VNull)
                      (Literal (VStr "x")) emptyWorld)))
    = (Ok tt, w') /\
    currentValue w' = VStr "x" /\
    loading w' = false /\
    backendCalls w' = [] /\
    recordOf localStorage "k" w' = Some "sx".
Proof.
  apply (X8_stored_value_survives_reload SharedLocal "k" VUndefined
           tagSerialize tagDeserialize VNull (Literal (VStr "x")) (VStr "x")
           "sx" (VStr "d") VNull emptyWorld);
    try reflexivity.
  discriminate.
Defined.

Lemma X9_witness :
  exists w1 w2,
    updateValue (named SharedLocal john) (Literal emptyName)
      (settledWorld "k" "John" john) = (Ok tt, w1) /\
    currentValue w1 = emptyName /\
    recordOf localStorage "k" w1 = Some "" /\
    activate
      (hookOf SharedLocal "k" VUndefined nameSerialize nameDeserialize VNull)
      (reload w1)
    = (Ok tt, w2) /\
    currentValue w2 = VNull /\
    recordOf localStorage "k" w2 = Some "" /\
    backendCalls w2 = [] /\
    console w2 = [].
Proof.
  apply (X9_empty_serialization_lost_on_reload SharedLocal "k" john
           nameSerialize nameDeserialize john (Literal emptyName) emptyName
           VNull (settledWorld "k" "John" john));
    reflexivity.
Defined.

Lemma X10_witness :
  (forall s, tagSerialize (VStr "d") = Ok s ->
             tagDeserialize s = Ok (VStr "d")) /\
  (forall held s, held !! "k" = Some s ->
                  refusal (seededWorld "k" "junk") localStorage held "k" s
                  = None) /\
  localRecords
    (snd (activate (tagged SharedLocal (VStr "d") (VStr "d"))
            (snd (activate (tagged SharedLocal (VStr "d") VNull)
                    (seededWorld "k" "junk")))))
  = {["k" := "sd"]} /\
  currentValue
    (snd (activate (tagged SharedLocal (VStr "d") (VStr "d"))
            (snd (activate (tagged SharedLocal (VStr "d") VNull)
                    (seededWorld "k" "junk")))))
  = VStr "d".
Proof.
  assert (Hround : forall s, tagSerialize (VStr "d") = Ok s ->
                             tagDeserialize s = Ok (VStr "d"))
    by (intros s; apply tag_pair_inverse).
  assert (Hrewrite : forall (held : gmap string string) (s : string),
            held !! "k" = Some s ->
            refusal (seededWorld "k" "junk") localStorage held "k" s = None)
    by (intros held s _; reflexivity).
  pose proof (X10_activation_idempotent SharedLocal "k" (VStr "d")
                tagSerialize tagDeserialize VNull (VStr "d")
                (seededWorld "k" "junk") Hround Hrewrite)
    as (Hlocal & _ & Hvalue & _).
  split; [exact Hround |]. split; [exact Hrewrite |]. split.
  - exact (eq_trans Hlocal eq_refl).
  - exact (eq_trans Hvalue eq_refl).
Defined.

Lemma X11_witness :
  currentValue
    (snd (dispatch (tagged InlineLocal (VStr "d") (VStr "old"))
            (StorageChange
               (changeNotice "k"
                  (snd (updateValue (tagged SharedLocal VUndefined VNull)
                          (Literal (VStr "x")) emptyWorld))))
            (settledWorld "k" "sold" (VStr "old"))))
  = VStr "x" /\
  currentValue
    (snd (dispatch (tagged InlineLocal (VStr "d") (VStr "old"))
            (StorageChange
               (changeNotice "k"
                  (snd (updateValue (tagged SharedLocal VUndefined VNull)
                          (Literal VNull) emptyWorld))))
            (settledWorld "k" "sold" (VStr "old"))))
  = VNull.
Proof.
  split.
  - apply (X11_storage_event_mirrors_update SharedLocal "k" VUndefined
             tagSerialize tagDeserialize VNull (Literal (VStr "x"))
             (VStr "x") InlineLocal (VStr "d") tagSerialize (VStr "old")
             emptyWorld (settledWorld "k" "sold" (VStr "old")));
      try reflexivity.
    right. exists "sx". repeat split. discriminate.
  - apply (X11_storage_event_mirrors_update SharedLocal "k" VUndefined
             tagSerialize tagDeserialize VNull (Literal VNull) VNull
             InlineLocal (VStr "d") tagSerialize (VStr "old")
             emptyWorld (settledWorld "k" "sold" (VStr "old")));
      try reflexivity.
    left. reflexivity.
Defined.

Lemma X12_witness :
  (exists w1,
     updateValue (tagged SharedLocal VUndefined (VBool true))
       (Updater (fun prev => Ok (VBool false)))
       (settledWorld "k" "true" (VBool true)) = (Ok tt, w1) /\
     currentValue w1 = VBool false /\
     recordOf localStorage "k" w1 = Some "false") /\
  (exists w2,
     updateValue (tagged SharedLocal VUndefined (VBool true))
       (Literal (VBool false))
       (settledWorld "k" "true" (VBool true)) = (Ok tt, w2) /\
     currentValue w2 = VNull /\
     recordOf localStorage "k" w2 = None).
Proof.
  apply (X12_updater_can_store_falsy_value SharedLocal "k" VUndefined
           tagSerialize tagDeserialize (VBool true)
           (fun prev => Ok (VBool false))
           (VBool false) "false" (settledWorld "k" "true" (VBool true)));
    reflexivity.
Defined.

Lemma X13_witness :
  consistent tagSerialize localStorage "k"
    (settledFullWorld "k" "sold" (VStr "old")) /\
  consistent tagSerialize localStorage "k"
    (snd (updateValue (tagged SharedLocal VUndefined (VStr "old"))
            (Literal (VStr "x"))
            (settledFullWorld "k" "sold" (VStr "old")))) /\
  consistent tagSerialize localStorage "k"
    (snd (updateValue (tagged SharedLocal VUndefined (VNum 3))
            (Literal (VStr "x"))
            (settledWorld "k" "junk" (VNum 3)))).
Proof.
  assert (Hbefore : consistent tagSerialize localStorage "k"
                      (settledFullWorld "k" "sold" (VStr "old")))
    by reflexivity.
  split; [exact Hbefore |]. split.
  - apply (proj1 (X13_update_keeps_record_and_value_in_step SharedLocal "k"
                    VUndefined tagSerialize tagDeserialize (VStr "old")
                    (Literal (VStr "x"))
                    (settledFullWorld "k" "sold" (VStr "old")))).
    exact Hbefore.
  - apply (proj2 (X13_update_keeps_record_and_value_in_step SharedLocal "k"
                    VUndefined tagSerialize tagDeserialize (VNum 3)
                    (Literal (VStr "x"))
                    (settledWorld "k" "junk" (VNum 3))));
      reflexivity.
Defined.

Lemma X14_witness :
  (forall v : Val, exists s, (fun _ : Val => Ok "x") v = Ok s) /\
  (forall raw, exists v, nameDeserialize raw = Ok v) /\
  neverRefuses (seededWorld "k" "") /\
  console
    (snd (run (hookOf SharedLocal "k" john (fun _ => Ok "x") nameDeserialize)
            [Update (Updater (fun prev => Throw typeError));
             StorageChange (mkStorageEvent (Some "k") (Some ""));
             Rerender true;
             Update (Literal (VNum 0))]
            (seededWorld "k" "")))
  = [].
Proof.
  assert (Hser : forall v : Val, exists s, (fun _ : Val => Ok "x") v = Ok s)
    by (intros v; exists "x"; reflexivity).
  assert (Hde : forall raw, exists v, nameDeserialize raw = Ok v)
    by (intros raw; eexists; reflexivity).
  assert (Hroom : neverRefuses (seededWorld "k" ""))
    by (intros storage held k s; reflexivity).
  split; [exact Hser |]. split; [exact Hde |]. split; [exact Hroom |].
  apply (X14_no_diagnostic_unless_pair_throws SharedLocal "k" john
           (fun _ => Ok "x") nameDeserialize
           [Update (Updater (fun prev => Throw typeError));
            StorageChange (mkStorageEvent (Some "k") (Some ""));
            Rerender true;
            Update (Literal (VNum 0))]
           (seededWorld "k" "") Hser Hde Hroom).
Defined.
